(** * Code-to-Diagram: the design-editor intent ([app.tsx])

    A shallow embedding of the [App] component of
    [src/intents/design_editor/app.tsx]: the render dispatcher
    [renderDiagram], the live-preview effect, the asset packaging done by
    [handleAddToDesign] and the host calls it makes, together with the
    JavaScript built-ins those functions rely on ([trim], [trimEnd],
    [split], [join], [parseFloat], the Number-to-String conversion) and a
    small DOM.

    Conventions of the model.
    - A JavaScript string is the sequence of its code units; this
      development covers the strings whose code units are below 256, one
      [ascii] per code unit.
    - A JavaScript number is an IEEE 754 binary64 value, here a primitive
      [float]; all NaNs are one value.
      [parseFloat] rounds the decimal literal it reads to the nearest
      value, ties to even, whatever the number of digits.
    - The three diagram libraries, the browser's HTML fragment parser and
      XML serializer, and the host (upload, addElement) are external: the
      libraries are a record of functions ([Libs]), assumed to answer the
      same input the same way; the host's answers arrive as events.
    - An event handler, the render that follows it and the effects of that
      render are one step: React flushes them before the next event is
      handled.  The localized messages are their default texts. *)

From Stdlib Require Import ZArith Floats List String Ascii Bool Lia DecimalString.
Import ListNotations.
Open Scope string_scope.

(* ================================================================== *)
(** ** JavaScript built-ins *)

Module JS.

(** [WhiteSpace] and [LineTerminator] code units below 256: TAB, LF, VT,
    FF, CR, SP and NBSP.  This is the set stripped by [trim] and matched
    by [\s]. *)
Definition isWhiteSpace (c : ascii) : bool :=
  match N_of_ascii c with
  | 9 | 10 | 11 | 12 | 13 | 32 | 160 => true
  | _ => false
  end%N.

Definition LF : ascii := ascii_of_nat 10.

(** The one-character string holding a line feed. *)
Definition newline : string := String LF EmptyString.

(** [String.prototype.trimStart] *)
Fixpoint trimStart (s : string) : string :=
  match s with
  | String c r => if isWhiteSpace c then trimStart r else s
  | EmptyString => EmptyString
  end.

(** [String.prototype.trimEnd] *)
Fixpoint trimEnd (s : string) : string :=
  match s with
  | String c r =>
      match trimEnd r with
      | EmptyString => if isWhiteSpace c then EmptyString else String c EmptyString
      | r' => String c r'
      end
  | EmptyString => EmptyString
  end.

(** [String.prototype.trim] *)
Definition trim (s : string) : string := trimEnd (trimStart s).

(** Truthiness of a string: [!s] is true exactly for the empty string. *)
Definition isEmpty (s : string) : bool :=
  match s with
  | EmptyString => true
  | String _ _ => false
  end.

(** [s.split(sep)] for a one-character separator: never the empty list. *)
Fixpoint split (sep : ascii) (s : string) : list string :=
  match s with
  | EmptyString => [EmptyString]
  | String c r =>
      if Ascii.eqb c sep then EmptyString :: split sep r
      else match split sep r with
           | f :: fs => String c f :: fs
           | [] => [String c EmptyString]
           end
  end.

(** [l.join(sep)] *)
Definition join (sep : string) (l : list string) : string := String.concat sep l.

(** [s.split(/[...]+/)] for a character class [isSep]: the fields between
    maximal runs of separator characters.  [inRun] tells that the previous
    character was a separator. *)
Fixpoint splitRuns (isSep : ascii -> bool) (inRun : bool) (s : string) : list string :=
  match s with
  | EmptyString => [EmptyString]
  | String c r =>
      if isSep c then
        if inRun then splitRuns isSep true r
        else EmptyString :: splitRuns isSep true r
      else match splitRuns isSep false r with
           | f :: fs => String c f :: fs
           | [] => [String c EmptyString]
           end
  end.

(** The class [[\s,]]. *)
Definition isSpaceOrComma (c : ascii) : bool :=
  isWhiteSpace c || Ascii.eqb c ","%char.

(** [a || d] for [a : string | null]: null and the empty string are falsy. *)
Definition orElse (a : option string) (d : string) : string :=
  match a with
  | Some (String _ _ as v) => v
  | _ => d
  end.

(** [a ?? d] *)
Definition nullish {A : Type} (a : option A) (d : A) : A :=
  match a with
  | Some v => v
  | None => d
  end.

(** *** Numbers *)

Definition digitOf (c : ascii) : option Z :=
  let n := Z.of_N (N_of_ascii c) in
  if ((48 <=? n) && (n <=? 57))%Z then Some (n - 48)%Z else None.

(** [DecimalDigits]: the longest run of digits at the head of [s], added
    to the digits already read ([acc]); returns the value, the number of
    digits read here, and the rest of the input. *)
Fixpoint readDigits (s : string) (acc count : Z) : Z * Z * string :=
  match s with
  | String c r =>
      match digitOf c with
      | Some d => readDigits r (10 * acc + d)%Z (count + 1)%Z
      | None => (acc, count, s)
      end
  | EmptyString => (acc, count, s)
  end.

(** [ExponentPart], when [s] starts with one; 0 otherwise. *)
Definition readExponent (s : string) : Z :=
  match s with
  | String ("e" | "E")%char r =>
      let '(neg, r') :=
        match r with
        | String "+"%char r1 => (false, r1)
        | String "-"%char r1 => (true, r1)
        | _ => (false, r)
        end in
      let '(v, n, _) := readDigits r' 0 0 in
      if (n =? 0)%Z then 0%Z else if neg then (- v)%Z else v
  | _ => 0%Z
  end.

(** The Number value of the real [(-1)^neg * m * 10^e10], rounded to
    nearest, ties to even. *)
Definition decimalToNumber (neg : bool) (m e10 : Z) : float :=
  match m with
  | Zpos p =>
      if (0 <=? e10)%Z
      then SF2Prim (binary_normalize prec emax
                      ((if neg then Zneg p else Zpos p) * 10 ^ e10) 0 neg)
      else SF2Prim (SFdiv prec emax (S754_finite neg p 0)
                      (S754_finite false (Z.to_pos (10 ^ (- e10))) 0))
  | _ => SF2Prim (S754_zero neg)
  end.

(** [StrUnsignedDecimalLiteral]: the value of the longest prefix of [s]
    that is one, NaN when there is none. *)
Definition readUnsigned (neg : bool) (s : string) : float :=
  if String.prefix "Infinity" s then (if neg then neg_infinity else infinity)
  else
    let '(i, ni, r1) := readDigits s 0 0 in
    let '(m, nf, r2) :=
      match r1 with
      | String "."%char r => readDigits r i 0
      | _ => (i, 0%Z, r1)
      end in
    if (ni + nf =? 0)%Z then nan
    else decimalToNumber neg m (readExponent r2 - nf).

(** The global [parseFloat]. *)
Definition parseFloat (s : string) : float :=
  match trimStart s with
  | String "+"%char r => readUnsigned false r
  | String "-"%char r => readUnsigned true r
  | r => readUnsigned false r
  end.

Definition digitsOfZ (z : Z) : string :=
  NilZero.string_of_uint (N.to_uint (Z.to_N z)).

Fixpoint zeros (n : nat) : string :=
  match n with
  | O => EmptyString
  | S k => String "0"%char (zeros k)
  end.

Definition takeS (n : Z) (s : string) : string :=
  String.substring 0 (Z.to_nat n) s.

Definition dropS (n : Z) (s : string) : string :=
  String.substring (Z.to_nat n) (String.length s - Z.to_nat n) s.

(** [10^(n-1) <= num/den] *)
Definition atLeastPow10 (num den n : Z) : bool :=
  (if 1 <=? n then 10 ^ (n - 1) * den <=? num else den <=? num * 10 ^ (1 - n))%Z.

(** The [n] with [10^(n-1) <= num/den < 10^n], searched downwards from an
    upper estimate. *)
Fixpoint decimalExponent (fuel : nat) (num den n : Z) : Z :=
  match fuel with
  | O => n
  | S f => if atLeastPow10 num den n then n else decimalExponent f num den (n - 1)%Z
  end.

(** [(num/den) / 10^p] as a fraction. *)
Definition scaleDown (num den p : Z) : Z * Z :=
  if (0 <=? p)%Z then (num, den * 10 ^ p)%Z else (num * 10 ^ (- p), den)%Z.

(** The [k]-digit integer [s] with [s * 10^(n-k)] reading back as [x], if
    there is one: the nearer of the two neighbours of [x / 10^(n-k)], the
    even one on a tie.  Returns [s] and the decimal exponent. *)
Definition candidate (x : float) (num den n k : Z) : option (Z * Z) :=
  let p := (n - k)%Z in
  let '(a, b) := scaleDown num den p in
  let lo := (a / b)%Z in
  let hi := (lo + 1)%Z in
  let okLo := (0 <? lo)%Z && PrimFloat.eqb (decimalToNumber false lo p) x in
  let okHi := PrimFloat.eqb (decimalToNumber false hi p) x in
  let twice := (2 * (a - lo * b))%Z in
  let pick :=
    if okLo && okHi then
      match (twice ?= b)%Z with
      | Lt => Some lo
      | Gt => Some hi
      | Eq => Some (if Z.even lo then lo else hi)
      end
    else if okLo then Some lo
    else if okHi then Some hi
    else None in
  match pick with
  | Some s => if (s =? 10 ^ k)%Z then Some (10 ^ (k - 1), n + 1)%Z else Some (s, n)
  | None => None
  end.

(** The shortest digit string that reads back as [x]: digits, decimal
    exponent, number of digits. *)
Fixpoint shortest (fuel : nat) (x : float) (num den n k : Z) : Z * Z * Z :=
  match fuel with
  | O => let '(a, b) := scaleDown num den (n - k) in ((a / b)%Z, n, k)
  | S f =>
      match candidate x num den n k with
      | Some (s, n') => (s, n', k)
      | None => shortest f x num den n (k + 1)%Z
      end
  end.

Definition formatDigits (s n k : Z) : string :=
  let ds := digitsOfZ s in
  if ((k <=? n) && (n <=? 21))%Z then ds ++ zeros (Z.to_nat (n - k))
  else if ((0 <? n) && (n <=? 21))%Z then takeS n ds ++ "." ++ dropS n ds
  else if ((-6 <? n) && (n <=? 0))%Z then "0." ++ zeros (Z.to_nat (- n)) ++ ds
  else
    let e := (n - 1)%Z in
    let es := (if (e <? 0)%Z then "-" else "+") ++ digitsOfZ (Z.abs e) in
    if (k =? 1)%Z then ds ++ "e" ++ es
    else takeS 1 ds ++ "." ++ dropS 1 ds ++ "e" ++ es.

(** [Number::toString] in radix 10, which is [String(x)] and the
    conversion done by a template literal. *)
Definition numberToString (x : float) : string :=
  match Prim2SF x with
  | S754_nan => "NaN"
  | S754_zero _ => "0"
  | S754_infinity neg => if neg then "-Infinity" else "Infinity"
  | S754_finite neg m e =>
      let '(num, den) :=
        if (0 <=? e)%Z then (Zpos m * 2 ^ e, 1)%Z else (Zpos m, 2 ^ (- e))%Z in
      let n := decimalExponent 8 num den
                 (((Z.log2 num - Z.log2 den + 2) * 30103) / 100000 + 2) in
      let '(s, n', k) := shortest 17 (abs x) num den n 1 in
      (if neg then "-" else EmptyString) ++ formatDigits s n' k
  end.

End JS.

(* ================================================================== *)
(** ** A small DOM *)

Module Dom.

#[warnings="-register-all"]
Inductive node : Type :=
| Element (tagName : string) (attributes : list (string * string)) (childNodes : list node)
| Text (data : string).

Fixpoint lookupAttr (name : string) (attrs : list (string * string)) : option string :=
  match attrs with
  | [] => None
  | (n, v) :: r => if String.eqb n name then Some v else lookupAttr name r
  end.

(** An existing attribute keeps its place; a new one goes last. *)
Fixpoint updateAttr (name value : string) (attrs : list (string * string))
  : list (string * string) :=
  match attrs with
  | [] => [(name, value)]
  | (n, v) :: r =>
      if String.eqb n name then (n, value) :: r
      else (n, v) :: updateAttr name value r
  end.

(** [el.getAttribute(name)]: [None] is [null]. *)
Definition getAttribute (el : node) (name : string) : option string :=
  match el with
  | Element _ attrs _ => lookupAttr name attrs
  | Text _ => None
  end.

(** [el.setAttribute(name, value)] *)
Definition setAttribute (el : node) (name value : string) : node :=
  match el with
  | Element t attrs ch => Element t (updateAttr name value attrs) ch
  | Text _ => el
  end.

Definition childNodesOf (el : node) : list node :=
  match el with
  | Element _ _ ch => ch
  | Text _ => []
  end.

(** [el.cloneNode(deep)] *)
Definition cloneNode (deep : bool) (el : node) : node :=
  match el with
  | Element t attrs ch => Element t attrs (if deep then ch else [])
  | Text _ => el
  end.

(** [el.insertBefore(child, el.firstChild)] *)
Definition insertFirst (el child : node) : node :=
  match el with
  | Element t attrs ch => Element t attrs (child :: ch)
  | Text _ => el
  end.

(** The first element with the given tag among [n] and its descendants, in
    document order. *)
Fixpoint firstByTag (tag : string) (n : node) : option node :=
  match n with
  | Element t _ ch =>
      if String.eqb t tag then Some n
      else (fix inList (l : list node) : option node :=
              match l with
              | [] => None
              | x :: r =>
                  match firstByTag tag x with
                  | Some y => Some y
                  | None => inList r
                  end
              end) ch
  | Text _ => None
  end.

(** [container.querySelector(tag)] for a type selector, on the content of
    the container. *)
Fixpoint querySelector (tag : string) (content : list node) : option node :=
  match content with
  | [] => None
  | x :: r =>
      match firstByTag tag x with
      | Some y => Some y
      | None => querySelector tag r
      end
  end.

End Dom.

Import JS Dom.

(* ================================================================== *)
(** ** The component *)

(** How a call into a library ends: with a value, or with a thrown
    exception.  No handler of [app.tsx] looks at the thrown value (every
    [catch] is written without a binding). *)
Inductive completion (A : Type) : Type :=
| Normal (a : A)
| Abrupt.
Arguments Normal {A} a.
Arguments Abrupt {A}.

Inductive DiagramSyntax : Type := graphviz | nomnoml | wavedrom.

Definition DiagramSyntax_eqb (a b : DiagramSyntax) : bool :=
  match a, b with
  | graphviz, graphviz | nomnoml, nomnoml | wavedrom, wavedrom => true
  | _, _ => false
  end.

Definition dq : string := String (ascii_of_nat 34) EmptyString.

(** [SYNTAX_CONFIGS[syntax].defaultCode].  The [syntaxHelp] entries are
    only displayed and are left out. *)
Definition defaultCode (syntax : DiagramSyntax) : string :=
  match syntax with
  | graphviz =>
"digraph G {
  rankdir=TB

  Start [shape=ellipse]
  Process [shape=box]
  Decision [shape=diamond]
  End [shape=ellipse]

  Start -> Process
  Process -> Decision
  Decision -> Yes [label=" ++ dq ++ "yes" ++ dq ++ "]
  Decision -> No [label=" ++ dq ++ "no" ++ dq ++ "]
  Yes -> End
  No -> Process
}"
  | nomnoml =>
"[User] -> [Application]
[Application] -> [Database]

[User|
  +name: string
  +email: string
  |
  +login()
  +logout()
]

[Application|
  -config: Config
  |
  +start()
  +stop()
]

[Database|
  +connect()
  +query()
]"
  | wavedrom =>
"{ " ++ dq ++ "signal" ++ dq ++ ": [
  { " ++ dq ++ "name" ++ dq ++ ": " ++ dq ++ "clk" ++ dq ++ ", "
      ++ dq ++ "wave" ++ dq ++ ": " ++ dq ++ "p......." ++ dq ++ " },
  { " ++ dq ++ "name" ++ dq ++ ": " ++ dq ++ "data" ++ dq ++ ", "
      ++ dq ++ "wave" ++ dq ++ ": " ++ dq ++ "x.345x.." ++ dq ++ ", "
      ++ dq ++ "data" ++ dq ++ ": [" ++ dq ++ "A" ++ dq ++ ", "
      ++ dq ++ "B" ++ dq ++ ", " ++ dq ++ "C" ++ dq ++ "] },
  { " ++ dq ++ "name" ++ dq ++ ": " ++ dq ++ "req" ++ dq ++ ", "
      ++ dq ++ "wave" ++ dq ++ ": " ++ dq ++ "0.1..0.." ++ dq ++ " },
  { " ++ dq ++ "name" ++ dq ++ ": " ++ dq ++ "ack" ++ dq ++ ", "
      ++ dq ++ "wave" ++ dq ++ ": " ++ dq ++ "1....0.." ++ dq ++ " }
]}"
  end.

(** The element returned by [Viz.renderSVGElement]: an [svg] element. *)
Record SVGSVGElement : Type := {
  svgAttributes : list (string * string);
  svgChildNodes : list node
}.

Definition svgNode (e : SVGSVGElement) : node :=
  Element "svg" (svgAttributes e) (svgChildNodes e).

(** A [Viz] instance, used through its [renderSVGElement] method. *)
Definition Viz : Type := string -> completion SVGSVGElement.

(** The imported libraries and the browser services the component calls. *)
Record Libs : Type := {
  JSONValue : Type;
  ONML : Type;
  Skin : Type;
  nomnoml_renderSvg : string -> completion string;
  JSON_parse : string -> completion JSONValue;
  wavedrom_waveSkin : Skin;
  wavedrom_renderAny : Z -> JSONValue -> Skin -> completion ONML;
  wavedrom_onml_stringify : ONML -> completion string;
  (** the fragment parser behind the [innerHTML] setter *)
  parseFragment : string -> list node;
  (** [new XMLSerializer().serializeToString] *)
  serializeToString : node -> string;
  (** [s => btoa(unescape(encodeURIComponent(s)))] *)
  base64OfUtf8 : string -> string
}.

(** The two [div]s the component renders into. *)
Inductive Mount : Type := PreviewDiv | ExportDiv.

(** The insertion entry points of [@canva/design]. *)
Inductive Feature : Type := addElementAtPoint | addElementAtCursor.

(** The argument of [upload]. *)
Record UploadRequest : Type := {
  up_type : string;
  up_mimeType : string;
  up_url : string;
  up_thumbnailUrl : string;
  up_aiDisclosure : string
}.

(** The argument of [addElement]. *)
Record ImageElement : Type := {
  el_type : string;
  el_ref : string;
  el_altText : string;
  el_decorative : bool
}.

(** Calls that leave the component. *)
Inductive LibCall : Type :=
| CallRenderSVGElement (code : string)
| CallNomnomlRenderSvg (cleaned : string)
| CallJSONParse (trimmed : string)
| CallWavedromRenderAny
| CallOnmlStringify.

Inductive HostCall : Type :=
| CallUpload (req : UploadRequest)
| CallAddElement (fn : Feature) (req : ImageElement).

(** One run of [renderDiagram], as the history records it. *)
Record RenderAttempt : Type := {
  ra_container : Mount;
  ra_syntax : DiagramSyntax;
  ra_code : string;
  ra_success : bool
}.

(** Where a running [handleAddToDesign] is suspended. *)
Inductive Pending : Type :=
| NoPending
| AwaitingUpload (addElement : Feature)
| AwaitingAddElement.

(** The state of the component: the [useState] cells, the two refs, the
    content of the two [div]s, what the host supports, the suspended
    insertion, and the history of calls and render attempts. *)
Record State : Type := {
  syntax : DiagramSyntax;
  codeInput : string;
  isLoading : bool;
  error : option string;
  hasValidDiagram : bool;
  vizInstance : option Viz;
  previewRef : option Mount;
  exportRef : option Mount;
  previewDiv : list node;
  exportDiv : list node;
  isSupported : Feature -> bool;
  pending : Pending;
  libCalls : list LibCall;
  hostCalls : list HostCall;
  renders : list RenderAttempt
}.

Definition setSyntax (v : DiagramSyntax) (s : State) : State :=
  {| syntax := v; codeInput := codeInput s; isLoading := isLoading s;
     error := error s; hasValidDiagram := hasValidDiagram s;
     vizInstance := vizInstance s; previewRef := previewRef s;
     exportRef := exportRef s; previewDiv := previewDiv s;
     exportDiv := exportDiv s; isSupported := isSupported s;
     pending := pending s; libCalls := libCalls s;
     hostCalls := hostCalls s; renders := renders s |}.

Definition setCodeInput (v : string) (s : State) : State :=
  {| syntax := syntax s; codeInput := v; isLoading := isLoading s;
     error := error s; hasValidDiagram := hasValidDiagram s;
     vizInstance := vizInstance s; previewRef := previewRef s;
     exportRef := exportRef s; previewDiv := previewDiv s;
     exportDiv := exportDiv s; isSupported := isSupported s;
     pending := pending s; libCalls := libCalls s;
     hostCalls := hostCalls s; renders := renders s |}.

Definition setIsLoading (v : bool) (s : State) : State :=
  {| syntax := syntax s; codeInput := codeInput s; isLoading := v;
     error := error s; hasValidDiagram := hasValidDiagram s;
     vizInstance := vizInstance s; previewRef := previewRef s;
     exportRef := exportRef s; previewDiv := previewDiv s;
     exportDiv := exportDiv s; isSupported := isSupported s;
     pending := pending s; libCalls := libCalls s;
     hostCalls := hostCalls s; renders := renders s |}.

Definition setError (v : option string) (s : State) : State :=
  {| syntax := syntax s; codeInput := codeInput s; isLoading := isLoading s;
     error := v; hasValidDiagram := hasValidDiagram s;
     vizInstance := vizInstance s; previewRef := previewRef s;
     exportRef := exportRef s; previewDiv := previewDiv s;
     exportDiv := exportDiv s; isSupported := isSupported s;
     pending := pending s; libCalls := libCalls s;
     hostCalls := hostCalls s; renders := renders s |}.

Definition setHasValidDiagram (v : bool) (s : State) : State :=
  {| syntax := syntax s; codeInput := codeInput s; isLoading := isLoading s;
     error := error s; hasValidDiagram := v;
     vizInstance := vizInstance s; previewRef := previewRef s;
     exportRef := exportRef s; previewDiv := previewDiv s;
     exportDiv := exportDiv s; isSupported := isSupported s;
     pending := pending s; libCalls := libCalls s;
     hostCalls := hostCalls s; renders := renders s |}.

Definition setVizInstance (v : option Viz) (s : State) : State :=
  {| syntax := syntax s; codeInput := codeInput s; isLoading := isLoading s;
     error := error s; hasValidDiagram := hasValidDiagram s;
     vizInstance := v; previewRef := previewRef s;
     exportRef := exportRef s; previewDiv := previewDiv s;
     exportDiv := exportDiv s; isSupported := isSupported s;
     pending := pending s; libCalls := libCalls s;
     hostCalls := hostCalls s; renders := renders s |}.

Definition setIsSupported (v : Feature -> bool) (s : State) : State :=
  {| syntax := syntax s; codeInput := codeInput s; isLoading := isLoading s;
     error := error s; hasValidDiagram := hasValidDiagram s;
     vizInstance := vizInstance s; previewRef := previewRef s;
     exportRef := exportRef s; previewDiv := previewDiv s;
     exportDiv := exportDiv s; isSupported := v;
     pending := pending s; libCalls := libCalls s;
     hostCalls := hostCalls s; renders := renders s |}.

Definition setPending (v : Pending) (s : State) : State :=
  {| syntax := syntax s; codeInput := codeInput s; isLoading := isLoading s;
     error := error s; hasValidDiagram := hasValidDiagram s;
     vizInstance := vizInstance s; previewRef := previewRef s;
     exportRef := exportRef s; previewDiv := previewDiv s;
     exportDiv := exportDiv s; isSupported := isSupported s;
     pending := v; libCalls := libCalls s;
     hostCalls := hostCalls s; renders := renders s |}.

(** The content of a [div]. *)
Definition contentOf (m : Mount) (s : State) : list node :=
  match m with
  | PreviewDiv => previewDiv s
  | ExportDiv => exportDiv s
  end.

Definition setContent (m : Mount) (v : list node) (s : State) : State :=
  {| syntax := syntax s; codeInput := codeInput s; isLoading := isLoading s;
     error := error s; hasValidDiagram := hasValidDiagram s;
     vizInstance := vizInstance s; previewRef := previewRef s;
     exportRef := exportRef s;
     previewDiv := match m with PreviewDiv => v | ExportDiv => previewDiv s end;
     exportDiv := match m with PreviewDiv => exportDiv s | ExportDiv => v end;
     isSupported := isSupported s;
     pending := pending s; libCalls := libCalls s;
     hostCalls := hostCalls s; renders := renders s |}.

Definition logLibCall (c : LibCall) (s : State) : State :=
  {| syntax := syntax s; codeInput := codeInput s; isLoading := isLoading s;
     error := error s; hasValidDiagram := hasValidDiagram s;
     vizInstance := vizInstance s; previewRef := previewRef s;
     exportRef := exportRef s; previewDiv := previewDiv s;
     exportDiv := exportDiv s; isSupported := isSupported s;
     pending := pending s; libCalls := libCalls s ++ [c];
     hostCalls := hostCalls s; renders := renders s |}.

Definition logHostCall (c : HostCall) (s : State) : State :=
  {| syntax := syntax s; codeInput := codeInput s; isLoading := isLoading s;
     error := error s; hasValidDiagram := hasValidDiagram s;
     vizInstance := vizInstance s; previewRef := previewRef s;
     exportRef := exportRef s; previewDiv := previewDiv s;
     exportDiv := exportDiv s; isSupported := isSupported s;
     pending := pending s; libCalls := libCalls s;
     hostCalls := hostCalls s ++ [c]; renders := renders s |}.

Definition logRender (r : RenderAttempt) (s : State) : State :=
  {| syntax := syntax s; codeInput := codeInput s; isLoading := isLoading s;
     error := error s; hasValidDiagram := hasValidDiagram s;
     vizInstance := vizInstance s; previewRef := previewRef s;
     exportRef := exportRef s; previewDiv := previewDiv s;
     exportDiv := exportDiv s; isSupported := isSupported s;
     pending := pending s; libCalls := libCalls s;
     hostCalls := hostCalls s; renders := renders s ++ [r] |}.

(** *** Statements that change the state and may throw *)

Definition M (A : Type) : Type := State -> completion A * State.

Definition ret {A : Type} (a : A) : M A := fun s => (Normal a, s).

Definition throw {A : Type} : M A := fun s => (Abrupt, s).

Definition bind {A B : Type} (m : M A) (k : A -> M B) : M B :=
  fun s =>
    match m s with
    | (Normal a, s') => k a s'
    | (Abrupt, s') => (Abrupt, s')
    end.

(** [try { body } catch { handler }]: what [body] did to the state before
    it threw stays done. *)
Definition tryCatch {A : Type} (body handler : M A) : M A :=
  fun s =>
    match body s with
    | (Normal a, s') => (Normal a, s')
    | (Abrupt, s') => handler s'
    end.

Definition get : M State := fun s => (Normal s, s).

Definition modify (f : State -> State) : M unit := fun s => (Normal tt, f s).

(** A call into a library: recorded, then it returns or throws. *)
Definition call {A : Type} (c : LibCall) (r : completion A) : M A :=
  fun s => (r, logLibCall c s).

Notation "x <- m ;; k" := (bind m (fun x => k))
  (at level 61, m at next level, right associativity).
Notation "m ;; k" := (bind m (fun _ => k))
  (at level 61, right associativity).

Section Component.

Variable L : Libs.

(** [container.innerHTML = html]; the empty string leaves no child. *)
Definition setInnerHTML (container : Mount) (html : string) : M unit :=
  modify (setContent container
            (match html with
             | EmptyString => []
             | _ => parseFragment L html
             end)).

(** [container.appendChild(child)] *)
Definition appendChild (container : Mount) (child : node) : M unit :=
  modify (fun s => setContent container (contentOf container s ++ [child]) s).

(** The text handed to [nomnoml.renderSvg]. *)
Definition nomnomlCleaned (code : string) : string :=
  trim (join newline (map trimEnd (split LF code))).

(** The body of [renderDiagram]. *)
Definition renderDiagramBody (syntax : DiagramSyntax) (vizInstance : option Viz)
    (container : Mount) (code : string) : M bool :=
  setInnerHTML container EmptyString ;;
  if isEmpty (trim code) then ret false
  else
    tryCatch
      (match syntax with
       | graphviz =>
           match vizInstance with
           | None => ret false
           | Some viz =>
               svg <- call (CallRenderSVGElement code) (viz code) ;;
               appendChild container (svgNode svg) ;;
               ret true
           end
       | nomnoml =>
           let cleaned := nomnomlCleaned code in
           svg <- call (CallNomnomlRenderSvg cleaned) (nomnoml_renderSvg L cleaned) ;;
           setInnerHTML container svg ;;
           ret true
       | wavedrom =>
           let trimmed := trim code in
           parsed <- call (CallJSONParse trimmed) (JSON_parse L trimmed) ;;
           onml <- call CallWavedromRenderAny
                     (wavedrom_renderAny L 0 parsed (wavedrom_waveSkin L)) ;;
           html <- call CallOnmlStringify (wavedrom_onml_stringify L onml) ;;
           setInnerHTML container html ;;
           ret true
       end)
      (ret false).

(** [renderDiagram(container, code)], for the [syntax] and [vizInstance]
    the callback was created with.  Each run is added to the history. *)
Definition renderDiagram (syntax : DiagramSyntax) (vizInstance : option Viz)
    (container : Mount) (code : string) : M bool :=
  success <- renderDiagramBody syntax vizInstance container code ;;
  modify (logRender {| ra_container := container; ra_syntax := syntax;
                       ra_code := code; ra_success := success |}) ;;
  ret success.

Definition msgInvalidSyntax : string := "Invalid syntax".
Definition msgFailedToAdd : string := "Failed to add diagram to design".

(** The effect that renders the preview; it runs after a render in which
    [codeInput], [syntax] or [renderDiagram] changed. *)
Definition previewEffect : M unit :=
  s <- get ;;
  match previewRef s with
  | None => ret tt
  | Some current =>
      tryCatch
        (success <- renderDiagram (syntax s) (vizInstance s) current (codeInput s) ;;
         modify (setHasValidDiagram success) ;;
         if success then modify (setError None)
         else if negb (isEmpty (trim (codeInput s)))
              then modify (setError (Some msgInvalidSyntax))
              else ret tt)
        (modify (setHasValidDiagram false) ;;
         modify (setError (Some msgInvalidSyntax)))
  end.

(** [handleSyntaxChange(newSyntax)] *)
Definition handleSyntaxChange (newSyntax : DiagramSyntax) : M unit :=
  modify (setSyntax newSyntax) ;;
  modify (setCodeInput (defaultCode newSyntax)) ;;
  modify (setError None).

(** [[addElementAtPoint, addElementAtCursor].find(fn => isSupported(fn))] *)
Definition addElement (s : State) : option Feature :=
  find (isSupported s) [addElementAtPoint; addElementAtCursor].

Definition padding : float := 20.

(** The white rectangle put behind the diagram. *)
Definition backgroundRect : node :=
  Element "rect"
    [("x", "-9999"); ("y", "-9999"); ("width", "99999");
     ("height", "99999"); ("fill", "#ffffff")] [].

(** The steps of [handleAddToDesign] from the clone to the background
    rectangle: the element that is serialized. *)
Definition packageSvg (svgElement : node) : node :=
  let svgClone := cloneNode true svgElement in
  let width := parseFloat (orElse (getAttribute svgElement "width") "400") in
  let height := parseFloat (orElse (getAttribute svgElement "height") "300") in
  let totalWidth := (width + padding * 2)%float in
  let totalHeight := (height + padding * 2)%float in
  let viewBox := getAttribute svgElement "viewBox" in
  let svgClone :=
    match viewBox with
    | Some (String _ _ as viewBox) =>
        let parts := map parseFloat (splitRuns isSpaceOrComma false viewBox) in
        let vbX := nullish (nth_error parts 0) 0%float in
        let vbY := nullish (nth_error parts 1) 0%float in
        let vbW := nullish (nth_error parts 2) width in
        let vbH := nullish (nth_error parts 3) height in
        setAttribute svgClone "viewBox"
          (numberToString (vbX - padding) ++ " " ++
           numberToString (vbY - padding) ++ " " ++
           numberToString (vbW + padding * 2) ++ " " ++
           numberToString (vbH + padding * 2))
    | _ => svgClone
    end in
  let svgClone := setAttribute svgClone "width" (numberToString totalWidth) in
  let svgClone := setAttribute svgClone "height" (numberToString totalHeight) in
  let bgRect := backgroundRect in
  insertFirst svgClone bgRect.

(** The [try] block of [handleAddToDesign] up to the argument of
    [upload]: the fresh render, the packaging, the data URL. *)
Definition exportAsset (current : Mount) : M string :=
  s <- get ;;
  success <- renderDiagram (syntax s) (vizInstance s) current (codeInput s) ;;
  if negb success then throw
  else
    s' <- get ;;
    match querySelector "svg" (contentOf current s') with
    | None => throw
    | Some svgElement =>
        let svgString := serializeToString L (packageSvg svgElement) in
        let base64 := base64OfUtf8 L svgString in
        ret ("data:image/svg+xml;base64," ++ base64)
    end.

Definition uploadRequest (dataUrl : string) : UploadRequest :=
  {| up_type := "image"; up_mimeType := "image/svg+xml"; up_url := dataUrl;
     up_thumbnailUrl := dataUrl; up_aiDisclosure := "none" |}.

Definition imageElement (ref : string) : ImageElement :=
  {| el_type := "image"; el_ref := ref; el_altText := "Diagram";
     el_decorative := false |}.

(** The [catch] and [finally] blocks of [handleAddToDesign]. *)
Definition addToDesignCatch (s : State) : State :=
  setError (Some msgFailedToAdd) s.

Definition addToDesignFinally (s : State) : State :=
  setPending NoPending (setIsLoading false s).

(** [handleAddToDesign], from its start to the first [await] (the call of
    [upload]) or, when it does not get there, to its end. *)
Definition handleAddToDesign (s : State) : State :=
  match addElement s, exportRef s with
  | Some fn, Some current =>
      let s1 := setError None (setIsLoading true s) in
      match exportAsset current s1 with
      | (Normal dataUrl, s2) =>
          setPending (AwaitingUpload fn)
            (logHostCall (CallUpload (uploadRequest dataUrl)) s2)
      | (Abrupt, s2) => addToDesignFinally (addToDesignCatch s2)
      end
  | _, _ => s
  end.

(** [handleAddToDesign] resumed when the promise of [upload] settles:
    with [result.ref], or with a rejection. *)
Definition resumeAfterUpload (fn : Feature) (result : completion string)
    (s : State) : State :=
  match result with
  | Normal ref =>
      setPending AwaitingAddElement
        (logHostCall (CallAddElement fn (imageElement ref)) s)
  | Abrupt => addToDesignFinally (addToDesignCatch s)
  end.

(** [handleAddToDesign] resumed when the promise of [addElement] settles. *)
Definition resumeAfterAddElement (result : completion unit) (s : State) : State :=
  match result with
  | Normal _ => addToDesignFinally s
  | Abrupt => addToDesignFinally (addToDesignCatch s)
  end.

(** The [disabled] property of the button. *)
Definition buttonDisabled (s : State) : bool :=
  match addElement s with
  | None => true
  | Some _ => false
  end || isLoading s || negb (hasValidDiagram s).

(** *** The component as a transition system *)

Inductive Event : Type :=
| Keystroke (value : string)
| SelectSyntax (newSyntax : DiagramSyntax)
| VizReady (viz : Viz)
| FeatureSupportChanged (supported : Feature -> bool)
| ClickAddToDesign
| UploadSettled (result : completion string)
| AddElementSettled (result : completion unit).

(** After an event handler, React renders again and runs the preview
    effect when one of its dependencies differs from the previous
    render. *)
Definition commit (prev next : State) : State :=
  if String.eqb (codeInput prev) (codeInput next)
     && DiagramSyntax_eqb (syntax prev) (syntax next)
  then next
  else snd (previewEffect next).

(** One event.  [None]: the event cannot happen in this state (a click on
    the disabled button, a second resolution of [instance()], a promise
    settling that nobody awaits). *)
Definition step (s : State) (e : Event) : option State :=
  match e with
  | Keystroke value => Some (commit s (setCodeInput value s))
  | SelectSyntax newSyntax => Some (commit s (snd (handleSyntaxChange newSyntax s)))
  | VizReady viz =>
      match vizInstance s with
      | None => Some (snd (previewEffect (setVizInstance (Some viz) s)))
      | Some _ => None
      end
  | FeatureSupportChanged supported => Some (setIsSupported supported s)
  | ClickAddToDesign =>
      if buttonDisabled s then None else Some (handleAddToDesign s)
  | UploadSettled result =>
      match pending s with
      | AwaitingUpload fn => Some (resumeAfterUpload fn result s)
      | _ => None
      end
  | AddElementSettled result =>
      match pending s with
      | AwaitingAddElement => Some (resumeAfterAddElement result s)
      | _ => None
      end
  end.

Fixpoint run (s : State) (events : list Event) : option State :=
  match events with
  | [] => Some s
  | e :: rest =>
      match step s e with
      | Some s' => run s' rest
      | None => None
      end
  end.

(** The [useState] initial values, before the first commit. *)
Definition initialState (supported : Feature -> bool) : State :=
  {| syntax := graphviz; codeInput := defaultCode graphviz; isLoading := false;
     error := None; hasValidDiagram := false; vizInstance := None;
     previewRef := None; exportRef := None; previewDiv := []; exportDiv := [];
     isSupported := supported; pending := NoPending;
     libCalls := []; hostCalls := []; renders := [] |}.

(** The first commit: both refs are attached, then the effects run (the
    one that starts [instance()] changes nothing yet). *)
Definition attachRefs (s : State) : State :=
  {| syntax := syntax s; codeInput := codeInput s; isLoading := isLoading s;
     error := error s; hasValidDiagram := hasValidDiagram s;
     vizInstance := vizInstance s; previewRef := Some PreviewDiv;
     exportRef := Some ExportDiv; previewDiv := previewDiv s;
     exportDiv := exportDiv s; isSupported := isSupported s;
     pending := pending s; libCalls := libCalls s;
     hostCalls := hostCalls s; renders := renders s |}.

Definition mounted (supported : Feature -> bool) : State :=
  snd (previewEffect (attachRefs (initialState supported))).

(** One whole run of [handleAddToDesign] from a state where none is in
    flight, given how the two promises settle. *)
Definition addToDesign (uploadResult : completion string)
    (addElementResult : completion unit) (s : State) : State :=
  let s1 := handleAddToDesign s in
  match pending s1 with
  | AwaitingUpload fn =>
      let s2 := resumeAfterUpload fn uploadResult s1 in
      match pending s2 with
      | AwaitingAddElement => resumeAfterAddElement addElementResult s2
      | _ => s2
      end
  | _ => s1
  end.

End Component.

(* ================================================================== *)
(** ** Notions used by the statements *)

(** A text that is empty or made of white space only. *)
Fixpoint allWhiteSpace (s : string) : bool :=
  match s with
  | EmptyString => true
  | String c r => isWhiteSpace c && allWhiteSpace r
  end.

(** Two lines that are the same up to the white space at their end. *)
Definition sameLineUpToTrailingSpace (la lb : string) : Prop :=
  exists core wa wb,
    la = core ++ wa /\ lb = core ++ wb /\
    allWhiteSpace wa = true /\ allWhiteSpace wb = true.

(** Two texts with the same lines up to the white space at the end of
    each line. *)
Definition differOnlyInTrailingSpace (a b : string) : Prop :=
  Forall2 sameLineUpToTrailingSpace (split LF a) (split LF b).

Definition isUpload (c : HostCall) : bool :=
  match c with
  | CallUpload _ => true
  | CallAddElement _ _ => false
  end.

Definition isAddElement (c : HostCall) : bool :=
  match c with
  | CallUpload _ => false
  | CallAddElement _ _ => true
  end.

Definition isVizReady (e : Event) : bool :=
  match e with
  | VizReady _ => true
  | _ => false
  end.

(** *** A concrete environment, for the examples *)

Definition sampleSvg : SVGSVGElement :=
  {| svgAttributes := [("width", "89pt"); ("height", "116pt");
                       ("viewBox", "0.00 0.00 89.00 116.00")];
     svgChildNodes := [Element "g" [("class", "graph")] []] |}.

(** A graph renderer that accepts the texts starting with [digraph]. *)
Definition sampleViz : Viz :=
  fun code => if String.prefix "digraph" (trim code) then Normal sampleSvg else Abrupt.

(** Libraries that accept any UML text and the timing texts starting with
    a brace; markup is parsed to one [svg] element holding it as text. *)
Definition sampleLibs : Libs :=
  {| JSONValue := string;
     ONML := string;
     Skin := unit;
     nomnoml_renderSvg := fun cleaned => Normal ("<svg>" ++ cleaned ++ "</svg>");
     JSON_parse := fun text => if String.prefix "{" text then Normal text else Abrupt;
     wavedrom_waveSkin := tt;
     wavedrom_renderAny := fun _ parsed _ => Normal parsed;
     wavedrom_onml_stringify := fun onml => Normal ("<svg>" ++ onml ++ "</svg>");
     parseFragment := fun html => [Element "svg" [] [Text html]];
     serializeToString := fun el =>
       match el with
       | Element t _ _ => "<" ++ t ++ "/>"
       | Text d => d
       end;
     base64OfUtf8 := fun text => text |}.

Definition onlyAtPoint (fn : Feature) : bool :=
  match fn with
  | addElementAtPoint => true
  | addElementAtCursor => false
  end.

Definition nothingSupported (fn : Feature) : bool := false.

Definition stateAfter (L : Libs) (supported : Feature -> bool)
    (events : list Event) : State :=
  match run L (mounted L supported) events with
  | Some s => s
  | None => mounted L supported
  end.

(** A text that does not start with white space. *)
Definition startsClean (s : string) : Prop :=
  match s with
  | EmptyString => True
  | String c _ => isWhiteSpace c = false
  end.

(** A text none of whose lines ends with white space. *)
Definition tidy (s : string) : Prop :=
  Forall (fun l => trimEnd l = l) (split LF s).

(** A text without line feed. *)
Fixpoint oneLine (s : string) : bool :=
  match s with
  | EmptyString => true
  | String c r => negb (Ascii.eqb c LF) && oneLine r
  end.

Definition appendLibCalls (cs : list LibCall) (s : State) : State :=
  {| syntax := syntax s; codeInput := codeInput s; isLoading := isLoading s;
     error := error s; hasValidDiagram := hasValidDiagram s;
     vizInstance := vizInstance s; previewRef := previewRef s;
     exportRef := exportRef s; previewDiv := previewDiv s;
     exportDiv := exportDiv s; isSupported := isSupported s;
     pending := pending s; libCalls := libCalls s ++ cs;
     hostCalls := hostCalls s; renders := renders s |}.

Definition attempt (c : Mount) (sy : DiagramSyntax) (code : string) (b : bool)
  : RenderAttempt :=
  {| ra_container := c; ra_syntax := sy; ra_code := code; ra_success := b |}.

(** What holds of every state the mounted component can reach. *)
Definition Invariant (L : Libs) (s : State) : Prop :=
  previewRef s = Some PreviewDiv /\
  exportRef s = Some ExportDiv /\
  (exists rs c,
      renders s
      = (rs ++ [attempt c (syntax s) (codeInput s) (hasValidDiagram s)])%list) /\
  (forall c s',
      fst (renderDiagram L (syntax s) (vizInstance s) c (codeInput s) s')
      = Normal (hasValidDiagram s)) /\
  (isLoading s = true <-> pending s <> NoPending).

(** The data URL made from the [svg] element found after the export
    render. *)
Definition dataUrlOf (L : Libs) (svgElement : node) : string :=
  "data:image/svg+xml;base64,"
  ++ base64OfUtf8 L (serializeToString L (packageSvg svgElement)).

(** One of the calls of [renderDiagram] into a library throws. *)
Definition libraryThrows (L : Libs) (sy : DiagramSyntax) (viz : option Viz)
    (code : string) : Prop :=
  match sy with
  | graphviz => exists v, viz = Some v /\ v code = Abrupt
  | nomnoml => nomnoml_renderSvg L (nomnomlCleaned code) = Abrupt
  | wavedrom =>
      match JSON_parse L (trim code) with
      | Abrupt => True
      | Normal parsed =>
          match wavedrom_renderAny L 0 parsed (wavedrom_waveSkin L) with
          | Abrupt => True
          | Normal onml => wavedrom_onml_stringify L onml = Abrupt
          end
      end
  end.

(** The sample component once the graph renderer is ready: the default
    graph text renders. *)
Definition readyState : State :=
  stateAfter sampleLibs onlyAtPoint [VizReady sampleViz].

(** Event sequences of the sample component: edits after the renderer is
    ready; an insertion whose upload is rejected; edits before the
    renderer is ready. *)
Definition editingEvents : list Event :=
  [VizReady sampleViz; Keystroke "digraph { a -> b }"; SelectSyntax wavedrom].

Definition rejectedUploadEvents : list Event :=
  [VizReady sampleViz; ClickAddToDesign; UploadSettled Abrupt].

Definition earlyEvents : list Event :=
  [Keystroke "digraph { a }"; SelectSyntax nomnoml; SelectSyntax graphviz].

(** A timing text that is not a structured document. *)
Definition brokenTiming : string := "signal: [".

(** A text of white space only: space, line feed, tab, carriage return. *)
Definition blankText : string :=
  String " " (String LF (String (ascii_of_nat 9) (String (ascii_of_nat 13) " "))).

(** Two UML texts that differ in the white space ending their lines. *)
Definition umlTextA : string :=
  "[A] -> [B]  " ++ String LF "[B]".

Definition umlTextB : string :=
  "[A] -> [B]" ++ String LF ("[B] " ++ String (ascii_of_nat 9) EmptyString).

(** An element with a size and no viewport rectangle, one with a
    viewport rectangle, and one whose width does not start with a
    number. *)
Definition plainSvg : node :=
  Element "svg" [("width", "400"); ("height", "300")] [Element "g" [] []].

Definition boxedSvg : node :=
  Element "svg" [("viewBox", "0 0 100 50")] [Element "g" [] []].

Definition oddSvg : node :=
  Element "svg" [("width", "abc"); ("height", "300")] [].
(* ================================================================== *)
(** ** The rest of the button, and notions for further properties *)

Definition msgUnsupported : string :=
  "This feature is not supported in the current page".

Definition msgEnterValid : string := "Enter valid code to enable".

(** The [tooltipLabel] property of the button; [None] is [undefined]. *)
Definition tooltipLabel (s : State) : option string :=
  match addElement s with
  | None => Some msgUnsupported
  | Some _ => if negb (hasValidDiagram s) then Some msgEnterValid else None
  end.

(** The [loading] property of the button. *)
Definition buttonLoading (s : State) : bool := isLoading s.

(** The text a library call receives, for the calls that receive one. *)
Definition libCallArgument (c : LibCall) : option string :=
  match c with
  | CallRenderSVGElement x | CallNomnomlRenderSvg x | CallJSONParse x => Some x
  | CallWavedromRenderAny | CallOnmlStringify => None
  end.

(** The events that do not belong to an insertion. *)
Definition isEditorEvent (e : Event) : bool :=
  match e with
  | Keystroke _ | SelectSyntax _ | VizReady _ | FeatureSupportChanged _ => true
  | ClickAddToDesign | UploadSettled _ | AddElementSettled _ => false
  end.

Definition countUploads (h : list HostCall) : nat :=
  List.length (filter isUpload h).

Definition countAddElements (h : list HostCall) : nat :=
  List.length (filter isAddElement h).

(** The messages the component can display. *)
Definition knownMessage (e : option string) : Prop :=
  e = None \/ e = Some msgInvalidSyntax \/ e = Some msgFailedToAdd.

Definition ErrorInvariant (s : State) : Prop :=
  knownMessage (error s)
  /\ (error s = Some msgInvalidSyntax -> hasValidDiagram s = false).

(** At every point of the history of host calls, no more insertions than
    uploads; one upload more while its promise is awaited. *)
Definition HostOrder (s : State) : Prop :=
  (forall n,
      countAddElements (firstn n (hostCalls s))
      <= countUploads (firstn n (hostCalls s)))
  /\ (forall fn,
         pending s = AwaitingUpload fn ->
         countAddElements (hostCalls s) < countUploads (hostCalls s)).

(** What the component may send to the host: an image upload of an SVG
    data URL, its own thumbnail, declared as made without AI; an image
    element with the alternative text [Diagram], not decorative. *)
Definition wellFormedHostCall (c : HostCall) : Prop :=
  match c with
  | CallUpload req =>
      up_type req = "image" /\ up_mimeType req = "image/svg+xml"
      /\ up_thumbnailUrl req = up_url req /\ up_aiDisclosure req = "none"
      /\ String.prefix "data:image/svg+xml;base64," (up_url req) = true
  | CallAddElement _ el =>
      el_type el = "image" /\ el_altText el = "Diagram" /\ el_decorative el = false
  end.

Definition everythingSupported (fn : Feature) : bool := true.

(** A whole insertion with an edit while the host works. *)
Definition insertionEvents : list Event :=
  [VizReady sampleViz; ClickAddToDesign; UploadSettled (Normal "ref-1");
   Keystroke " "; AddElementSettled (Normal tt)].

(** An insertion suspended at the upload. *)
Definition suspendedEvents : list Event :=
  [VizReady sampleViz; ClickAddToDesign].

(** Elements whose viewport rectangle has two fields, and starts with a
    space. *)
Definition shortBoxSvg : node :=
  Element "svg" [("width", "200"); ("height", "100"); ("viewBox", "5 6")] [].

Definition spacedBoxSvg : node :=
  Element "svg" [("viewBox", " 0 0 100 50")] [].

(** A run of characters of the class [[\s,]]. *)
Fixpoint allSeparators (s : string) : bool :=
  match s with
  | EmptyString => true
  | String c r => isSpaceOrComma c && allSeparators r
  end.

(** A text that does not start with a character of the class [[\s,]]. *)
Definition startsWithField (s : string) : Prop :=
  match s with
  | EmptyString => True
  | String c _ => isSpaceOrComma c = false
  end.

(** Elements whose viewport rectangle ends with a space, and is no list
    of numbers. *)
Definition trailingBoxSvg : node :=
  Element "svg" [("viewBox", "0 0 100 50 ")] [].

Definition junkBoxSvg : node :=
  Element "svg" [("viewBox", "none")] [].

(* ================================================================== *)
(** ** White space, trimming, lines *)

Section Strings.

Lemma LF_isWhiteSpace : isWhiteSpace LF = true.
Proof. reflexivity. Qed.

Lemma eqb_LF_isWhiteSpace (c : ascii) : Ascii.eqb c LF = true -> isWhiteSpace c = true.
Proof. intros H. apply Ascii.eqb_eq in H. subst c. reflexivity. Qed.

Lemma allWhiteSpace_app (a b : string) :
  allWhiteSpace (a ++ b) = allWhiteSpace a && allWhiteSpace b.
Proof.
  induction a as [|c a IH]; simpl.
  - reflexivity.
  - rewrite IH. now rewrite andb_assoc.
Qed.

Lemma trimEnd_empty_iff (s : string) :
  trimEnd s = EmptyString <-> allWhiteSpace s = true.
Proof.
  induction s as [|c s IH]; simpl.
  - tauto.
  - destruct (trimEnd s) eqn:E.
    + destruct (isWhiteSpace c); simpl.
      * tauto.
      * split; discriminate.
    + split; [discriminate|].
      intros H. apply andb_true_iff in H. destruct H as [_ H].
      apply IH in H. discriminate.
Qed.

Lemma allWhiteSpace_trimStart (s : string) :
  allWhiteSpace (trimStart s) = allWhiteSpace s.
Proof.
  induction s as [|c s IH]; simpl.
  - reflexivity.
  - destruct (isWhiteSpace c) eqn:E; simpl.
    + exact IH.
    + now rewrite E.
Qed.

Lemma allWhiteSpace_trimEnd (s : string) :
  allWhiteSpace (trimEnd s) = allWhiteSpace s.
Proof.
  induction s as [|c s IH]; simpl.
  - reflexivity.
  - destruct (trimEnd s) eqn:E.
    + simpl in IH. rewrite <- IH.
      destruct (isWhiteSpace c) eqn:Ec; simpl; now rewrite ?Ec.
    + change (allWhiteSpace (String c (String a s0)))
        with (isWhiteSpace c && allWhiteSpace (String a s0)).
      now rewrite IH.
Qed.

(** [!code.trim()] holds exactly for the texts made of white space. *)
Lemma isEmpty_trim (s : string) : isEmpty (trim s) = allWhiteSpace s.
Proof.
  unfold trim. rewrite <- (allWhiteSpace_trimStart s).
  destruct (trimEnd (trimStart s)) eqn:E; simpl.
  - symmetry. now apply trimEnd_empty_iff.
  - destruct (allWhiteSpace (trimStart s)) eqn:F; [|reflexivity].
    apply trimEnd_empty_iff in F. congruence.
Qed.

Lemma trimEnd_idempotent (s : string) : trimEnd (trimEnd s) = trimEnd s.
Proof.
  induction s as [|c s IH]; simpl.
  - reflexivity.
  - destruct (trimEnd s) eqn:E.
    + destruct (isWhiteSpace c) eqn:Ec; simpl; now rewrite ?Ec.
    + change (trimEnd (String c (String a s0)))
        with (match trimEnd (String a s0) with
              | EmptyString =>
                  if isWhiteSpace c then EmptyString else String c EmptyString
              | r' => String c r'
              end).
      now rewrite IH.
Qed.

(** White space at the end of a line does not change what [trimEnd]
    returns. *)
Lemma trimEnd_app_space (core w : string) :
  allWhiteSpace w = true -> trimEnd (core ++ w) = trimEnd core.
Proof.
  intros Hw. induction core as [|c core IH]; simpl.
  - now apply trimEnd_empty_iff.
  - now rewrite IH.
Qed.

Lemma trimStart_startsClean (s : string) : startsClean (trimStart s).
Proof.
  induction s as [|c s IH]; simpl.
  - exact I.
  - destruct (isWhiteSpace c) eqn:E; simpl; assumption.
Qed.

Lemma trimStart_of_startsClean (s : string) : startsClean s -> trimStart s = s.
Proof.
  destruct s as [|c s]; simpl.
  - reflexivity.
  - intros ->. reflexivity.
Qed.

Lemma trimEnd_startsClean (s : string) : startsClean s -> startsClean (trimEnd s).
Proof.
  destruct s as [|c s]; simpl.
  - trivial.
  - intros H. destruct (trimEnd s); rewrite ?H; simpl; assumption.
Qed.

Lemma trim_idempotent (s : string) : trim (trim s) = trim s.
Proof.
  unfold trim.
  rewrite (trimStart_of_startsClean (trimEnd (trimStart s))).
  - apply trimEnd_idempotent.
  - apply trimEnd_startsClean, trimStart_startsClean.
Qed.

End Strings.

Section Lines.

Lemma split_not_nil (sep : ascii) (s : string) : split sep s <> [].
Proof.
  destruct s as [|c s]; simpl.
  - discriminate.
  - destruct (Ascii.eqb c sep); [discriminate|].
    destruct (split sep s); discriminate.
Qed.

Lemma split_cons_other (c : ascii) (s : string) :
  Ascii.eqb c LF = false ->
  exists f fs, split LF s = f :: fs /\ split LF (String c s) = String c f :: fs.
Proof.
  intros H. simpl. rewrite H.
  destruct (split LF s) as [|f fs] eqn:E.
  - now apply split_not_nil in E.
  - now exists f, fs.
Qed.

Lemma join_cons_char (c : ascii) (f : string) (fs : list string) :
  join newline (String c f :: fs) = String c (join newline (f :: fs)).
Proof. destruct fs; reflexivity. Qed.

Lemma join_split (s : string) : join newline (split LF s) = s.
Proof.
  induction s as [|c s IH].
  - reflexivity.
  - destruct (Ascii.eqb c LF) eqn:E.
    + simpl. rewrite E. apply Ascii.eqb_eq in E. subst c.
      destruct (split LF s) as [|f fs] eqn:F.
      * now apply split_not_nil in F.
      * change (join newline (EmptyString :: f :: fs))
          with (String LF (join newline (f :: fs))).
        now rewrite IH.
    + destruct (split_cons_other c s E) as (f & fs & F & G).
      rewrite G, join_cons_char. rewrite F in IH. now rewrite IH.
Qed.

Lemma split_oneLine (s : string) : Forall (fun l => oneLine l = true) (split LF s).
Proof.
  induction s as [|c s IH].
  - repeat constructor.
  - destruct (Ascii.eqb c LF) eqn:E.
    + simpl. rewrite E. constructor; [reflexivity|assumption].
    + destruct (split_cons_other c s E) as (f & fs & F & G).
      rewrite G. rewrite F in IH. inversion IH; subst.
      constructor; [|assumption]. simpl. now rewrite E.
Qed.

Lemma split_of_oneLine (l : string) : oneLine l = true -> split LF l = [l].
Proof.
  induction l as [|c l IH]; simpl.
  - reflexivity.
  - intros H. apply andb_true_iff in H. destruct H as [Hc Hl].
    apply negb_true_iff in Hc. rewrite Hc, (IH Hl). reflexivity.
Qed.

Lemma split_app_LF (l t : string) :
  oneLine l = true -> split LF (l ++ String LF t) = l :: split LF t.
Proof.
  induction l as [|c l IH]; simpl.
  - reflexivity.
  - intros H. apply andb_true_iff in H. destruct H as [Hc Hl].
    apply negb_true_iff in Hc. rewrite Hc, (IH Hl). reflexivity.
Qed.

Lemma split_join (ls : list string) :
  ls <> [] -> Forall (fun l => oneLine l = true) ls -> split LF (join newline ls) = ls.
Proof.
  induction ls as [|x ls IH]; [congruence|].
  intros _ H. inversion H as [|? ? Hx Hls]; subst.
  destruct ls as [|y ls].
  - simpl. now apply split_of_oneLine.
  - change (join newline (x :: y :: ls)) with (x ++ String LF (join newline (y :: ls))).
    rewrite (split_app_LF _ _ Hx). f_equal. apply IH; [discriminate|assumption].
Qed.

Lemma oneLine_trimEnd (l : string) : oneLine l = true -> oneLine (trimEnd l) = true.
Proof.
  induction l as [|c l IH]; simpl.
  - reflexivity.
  - intros H. apply andb_true_iff in H. destruct H as [Hc Hl].
    specialize (IH Hl). destruct (trimEnd l).
    + destruct (isWhiteSpace c); simpl; rewrite ?Hc; reflexivity.
    + simpl in *. rewrite Hc, IH. reflexivity.
Qed.

Lemma allWhiteSpace_join (ls : list string) :
  allWhiteSpace (join newline ls) = forallb allWhiteSpace ls.
Proof.
  induction ls as [|x ls IH].
  - reflexivity.
  - destruct ls as [|y ls].
    + simpl. now rewrite andb_true_r.
    + change (join newline (x :: y :: ls)) with (x ++ String LF (join newline (y :: ls))).
      rewrite allWhiteSpace_app.
      change (allWhiteSpace (String LF (join newline (y :: ls))))
        with (allWhiteSpace (join newline (y :: ls))).
      now rewrite IH.
Qed.

(** The lines handed to the UML renderer before the final [trim]. *)
Lemma split_join_trimEnd (s : string) :
  split LF (join newline (map trimEnd (split LF s))) = map trimEnd (split LF s).
Proof.
  apply split_join.
  - intros H. apply map_eq_nil in H. now apply split_not_nil in H.
  - apply Forall_map. eapply Forall_impl; [|apply split_oneLine].
    intros l. apply oneLine_trimEnd.
Qed.

Lemma tidy_join_trimEnd (s : string) : tidy (join newline (map trimEnd (split LF s))).
Proof.
  unfold tidy. rewrite split_join_trimEnd. apply Forall_map.
  apply Forall_forall. intros l _. apply trimEnd_idempotent.
Qed.

Lemma trimEnd_cons_fixed (c : ascii) (f : string) :
  trimEnd (String c f) = String c f -> trimEnd f = f.
Proof.
  simpl. destruct (trimEnd f) eqn:E.
  - destruct (isWhiteSpace c); [discriminate|]. intros H. now inversion H.
  - intros H. now inversion H.
Qed.

Lemma tidy_tail (c : ascii) (s : string) :
  isWhiteSpace c = true -> tidy (String c s) -> tidy s.
Proof.
  unfold tidy. intros Hc H.
  destruct (Ascii.eqb c LF) eqn:E.
  - simpl in H. rewrite E in H. now inversion H.
  - destruct (split_cons_other c s E) as (f & fs & F & G).
    rewrite G in H. rewrite F. inversion H as [|? ? Hf Hfs]; subst.
    constructor; [|assumption]. now apply trimEnd_cons_fixed in Hf.
Qed.

Lemma tidy_trimStart (s : string) : tidy s -> tidy (trimStart s).
Proof.
  induction s as [|c s IH]; simpl.
  - trivial.
  - destruct (isWhiteSpace c) eqn:E; [|trivial].
    intros H. apply IH. now apply tidy_tail in H.
Qed.

Lemma trimEnd_head (s : string) (a : ascii) (t : string) :
  trimEnd s = String a t -> exists t', s = String a t'.
Proof.
  destruct s as [|c s]; simpl; [discriminate|].
  destruct (trimEnd s).
  - destruct (isWhiteSpace c); [discriminate|].
    intros H. inversion H; subst. now exists s.
  - intros H. inversion H; subst. now exists s.
Qed.

Lemma tidy_trimEnd (s : string) : tidy s -> tidy (trimEnd s).
Proof.
  induction s as [|c s IH].
  - trivial.
  - intros H. simpl.
    destruct (trimEnd s) as [|a t] eqn:E.
    + destruct (isWhiteSpace c) eqn:Ec.
      * repeat constructor.
      * unfold tidy. simpl.
        assert (Ascii.eqb c LF = false) as Hc.
        { destruct (Ascii.eqb c LF) eqn:F; [|reflexivity].
          apply eqb_LF_isWhiteSpace in F. congruence. }
        rewrite Hc. repeat constructor. simpl. now rewrite Ec.
    + destruct (Ascii.eqb c LF) eqn:Hc.
      * unfold tidy in *. simpl in H. rewrite Hc in H.
        inversion H as [|? ? _ Hs]; subst.
        change (split LF (String c (String a t)))
          with (if Ascii.eqb c LF then EmptyString :: split LF (String a t)
                else match split LF (String a t) with
                     | f :: fs => String c f :: fs
                     | [] => [String c EmptyString]
                     end).
        rewrite Hc. constructor; [reflexivity|]. now apply IH.
      * destruct (split_cons_other c s Hc) as (f & fs & F & G).
        assert (tidy s) as Hs.
        { unfold tidy in *. rewrite G in H. rewrite F.
          inversion H as [|? ? Hf Hfs]; subst.
          constructor; [|assumption]. now apply trimEnd_cons_fixed in Hf. }
        specialize (IH Hs). unfold tidy in IH.
        destruct (split_cons_other c (String a t) Hc) as (f' & fs' & F' & G').
        unfold tidy. rewrite G'. rewrite F' in IH.
        inversion IH as [|? ? Hf' Hfs']; subst.
        constructor; [|assumption].
        simpl. rewrite Hf'.
        destruct f' as [|b f']; [|reflexivity].
        (* the first line of [trimEnd s] is empty: [s] starts with LF, so
           the first line of [String c s] is the single character [c] *)
        destruct (isWhiteSpace c) eqn:Ec; [|reflexivity].
        exfalso.
        assert (a = LF) as ->.
        { simpl in F'. destruct (Ascii.eqb a LF) eqn:Ha.
          - now apply Ascii.eqb_eq in Ha.
          - destruct (split LF t); discriminate. }
        destruct (trimEnd_head _ _ _ E) as (t' & ->).
        unfold tidy in H. simpl in H. rewrite Hc in H.
        inversion H as [|? ? Hf _]; subst.
        simpl in Hf. rewrite Ec in Hf. discriminate.
Qed.

Lemma tidy_fixed (r : string) : tidy r -> join newline (map trimEnd (split LF r)) = r.
Proof.
  intros H. rewrite <- (join_split r) at 2. f_equal.
  unfold tidy in H. rewrite <- (map_id (split LF r)) at 2.
  apply map_ext_Forall. exact H.
Qed.

End Lines.

(* ================================================================== *)
(** ** The text handed to the UML renderer *)

Section Cleaning.

Lemma trimEnd_same_line (la lb : string) :
  sameLineUpToTrailingSpace la lb -> trimEnd la = trimEnd lb.
Proof.
  intros (core & wa & wb & -> & -> & Ha & Hb).
  now rewrite !trimEnd_app_space.
Qed.

Lemma nomnomlCleaned_same (a b : string) :
  differOnlyInTrailingSpace a b -> nomnomlCleaned a = nomnomlCleaned b.
Proof.
  unfold differOnlyInTrailingSpace, nomnomlCleaned. intros H.
  do 2 f_equal.
  induction H as [|la lb ra rb Hl _ IH]; simpl.
  - reflexivity.
  - now rewrite (trimEnd_same_line _ _ Hl), IH.
Qed.

Lemma nomnomlCleaned_idempotent (a : string) :
  nomnomlCleaned (nomnomlCleaned a) = nomnomlCleaned a.
Proof.
  assert (tidy (nomnomlCleaned a)) as H.
  { unfold nomnomlCleaned, trim.
    apply tidy_trimEnd, tidy_trimStart, tidy_join_trimEnd. }
  unfold nomnomlCleaned at 1. rewrite (tidy_fixed _ H).
  unfold nomnomlCleaned. apply trim_idempotent.
Qed.

Lemma forallb_allWhiteSpace_trimEnd (ls : list string) :
  forallb allWhiteSpace (map trimEnd ls) = forallb allWhiteSpace ls.
Proof.
  induction ls as [|l ls IH]; simpl.
  - reflexivity.
  - now rewrite allWhiteSpace_trimEnd, IH.
Qed.

(** The cleaned text is empty exactly when the text is blank. *)
Lemma isEmpty_nomnomlCleaned (a : string) :
  isEmpty (nomnomlCleaned a) = isEmpty (trim a).
Proof.
  unfold nomnomlCleaned. rewrite !isEmpty_trim.
  rewrite allWhiteSpace_join, forallb_allWhiteSpace_trimEnd.
  rewrite <- allWhiteSpace_join. now rewrite join_split.
Qed.

End Cleaning.

(* ================================================================== *)
(** ** The render dispatcher *)

Section Dispatcher.

Variable L : Libs.

Ltac shape_done :=
  let c := fresh "c" in
  let s := fresh "s" in
  intros c s; destruct s, c;
  cbv [appendLibCalls setContent logLibCall contentOf
       syntax codeInput isLoading error hasValidDiagram vizInstance previewRef
       exportRef previewDiv exportDiv isSupported pending libCalls hostCalls
       renders];
  rewrite <- ?app_assoc, ?app_nil_r; reflexivity.

(** What a run of the body does depends on the syntax, the renderer
    instance and the text only: it always returns, sets the content of
    the container, and adds the calls it made. *)
Lemma renderDiagramBody_shape (sy : DiagramSyntax) (viz : option Viz) (code : string) :
  exists b content cs,
    (b = false -> content = []) /\
    forall c s,
      renderDiagramBody L sy viz c code s
      = (Normal b, appendLibCalls cs (setContent c content s)).
Proof.
  unfold renderDiagramBody, tryCatch, bind, call, setInnerHTML, appendChild,
    modify, ret.
  destruct (isEmpty (trim code)).
  - exists false, [], []. split; [reflexivity|].
    shape_done.
  - destruct sy.
    + destruct viz as [viz|].
      * destruct (viz code) as [svg|].
        -- exists true, [svgNode svg], [CallRenderSVGElement code].
           split; [discriminate|]. shape_done.
        -- exists false, [], [CallRenderSVGElement code].
           split; [reflexivity|]. shape_done.
      * exists false, [], []. split; [reflexivity|].
        shape_done.
    + destruct (nomnoml_renderSvg L (nomnomlCleaned code)) as [svg|].
      * exists true,
          (match svg with EmptyString => [] | _ => parseFragment L svg end),
          [CallNomnomlRenderSvg (nomnomlCleaned code)].
        split; [discriminate|]. shape_done.
      * exists false, [], [CallNomnomlRenderSvg (nomnomlCleaned code)].
        split; [reflexivity|]. shape_done.
    + destruct (JSON_parse L (trim code)) as [parsed|].
      * destruct (wavedrom_renderAny L 0 parsed (wavedrom_waveSkin L)) as [onml|].
        -- destruct (wavedrom_onml_stringify L onml) as [html|].
           ++ exists true,
                (match html with EmptyString => [] | _ => parseFragment L html end),
                [CallJSONParse (trim code); CallWavedromRenderAny; CallOnmlStringify].
              split; [discriminate|]. shape_done.
           ++ exists false, [],
                [CallJSONParse (trim code); CallWavedromRenderAny; CallOnmlStringify].
              split; [reflexivity|]. shape_done.
        -- exists false, [], [CallJSONParse (trim code); CallWavedromRenderAny].
           split; [reflexivity|]. shape_done.
      * exists false, [], [CallJSONParse (trim code)].
        split; [reflexivity|]. shape_done.
Qed.

Lemma renderDiagram_shape (sy : DiagramSyntax) (viz : option Viz) (code : string) :
  exists b content cs,
    (b = false -> content = []) /\
    forall c s,
      renderDiagram L sy viz c code s
      = (Normal b,
         logRender (attempt c sy code b)
           (appendLibCalls cs (setContent c content s))).
Proof.
  destruct (renderDiagramBody_shape sy viz code) as (b & content & cs & Hb & H).
  exists b, content, cs. split; [assumption|].
  intros c s. unfold renderDiagram, bind, modify, ret. now rewrite H.
Qed.

(** The outcome of a render does not depend on the container nor on the
    state it starts from. *)
Lemma renderDiagram_outcome (sy : DiagramSyntax) (viz : option Viz) (code : string)
    (c c' : Mount) (s s' : State) :
  fst (renderDiagram L sy viz c code s) = fst (renderDiagram L sy viz c' code s').
Proof.
  destruct (renderDiagram_shape sy viz code) as (b & content & cs & _ & H).
  now rewrite !H.
Qed.

End Dispatcher.

Section DispatcherClaims.

Variable L : Libs.

(** C4.  For every syntax and every text that is empty or made of white
    space only, [renderDiagram] returns [false], leaves the container
    without content, and calls no library (and nothing of the host). *)
Theorem blank_text_fails_without_rendering
    (sy : DiagramSyntax) (viz : option Viz) (c : Mount) (code : string) (s : State) :
  allWhiteSpace code = true ->
  fst (renderDiagram L sy viz c code s) = Normal false /\
  contentOf c (snd (renderDiagram L sy viz c code s)) = [] /\
  libCalls (snd (renderDiagram L sy viz c code s)) = libCalls s /\
  hostCalls (snd (renderDiagram L sy viz c code s)) = hostCalls s.
Proof.
  intros H.
  unfold renderDiagram, renderDiagramBody, bind, setInnerHTML, modify, ret.
  rewrite isEmpty_trim, H. destruct s, c; simpl; auto.
Qed.

(** C5.  [renderDiagram] empties the container first, whatever happens
    next: the run is the same as from the state with the container
    already empty.  It never ends with an exception; when a call into a
    library throws, it returns [false]; and whenever it returns [false]
    the container is left empty. *)
Theorem renderDiagram_clears_and_catches
    (sy : DiagramSyntax) (viz : option Viz) (c : Mount) (code : string) (s : State) :
  renderDiagram L sy viz c code s = renderDiagram L sy viz c code (setContent c [] s)
  /\ (exists b, fst (renderDiagram L sy viz c code s) = Normal b
        /\ (b = false -> contentOf c (snd (renderDiagram L sy viz c code s)) = []))
  /\ (libraryThrows L sy viz code ->
      fst (renderDiagram L sy viz c code s) = Normal false
      /\ contentOf c (snd (renderDiagram L sy viz c code s)) = []).
Proof.
  destruct (renderDiagram_shape L sy viz code) as (b & content & cs & Hb & H).
  assert (contentOf c (snd (renderDiagram L sy viz c code s)) = content) as Hc.
  { rewrite H. destruct s, c; reflexivity. }
  split; [|split].
  - rewrite !H. destruct s, c; reflexivity.
  - exists b. split.
    + now rewrite H.
    + intros Hf. rewrite Hc. now apply Hb.
  - intros Ht.
    assert (b = false) as ->.
    { specialize (H c s). apply (f_equal fst) in H. simpl in H.
      revert H.
      unfold renderDiagram, renderDiagramBody, tryCatch, bind, call,
        setInnerHTML, appendChild, modify, ret.
      destruct (isEmpty (trim code)); simpl; [congruence|].
      destruct sy; simpl in Ht.
      - destruct Ht as (v & -> & Hv). rewrite Hv. simpl. congruence.
      - rewrite Ht. simpl. congruence.
      - destruct (JSON_parse L (trim code)) as [parsed|]; simpl; [|congruence].
        destruct (wavedrom_renderAny L 0 parsed (wavedrom_waveSkin L)) as [onml|];
          simpl; [|congruence].
        rewrite Ht. simpl. congruence. }
    split.
    + now rewrite H.
    + rewrite Hc. now apply Hb.
Qed.

(** C6.  For the UML syntax, two texts that differ only in the white
    space at the end of their lines are cleaned to the same string, and
    so the dispatcher does the same with both: the same call of the
    renderer, the same outcome, the same content.  Cleaning a cleaned text
    changes nothing. *)
Theorem nomnoml_trailing_space_irrelevant (a b : string) :
  differOnlyInTrailingSpace a b ->
  nomnomlCleaned a = nomnomlCleaned b
  /\ (forall viz c s,
         renderDiagramBody L nomnoml viz c a s = renderDiagramBody L nomnoml viz c b s)
  /\ (forall x, nomnomlCleaned (nomnomlCleaned x) = nomnomlCleaned x).
Proof.
  intros H. pose proof (nomnomlCleaned_same a b H) as E.
  split; [exact E|split].
  - intros viz c s. unfold renderDiagramBody.
    rewrite <- (isEmpty_nomnomlCleaned a), <- (isEmpty_nomnomlCleaned b), E.
    reflexivity.
  - apply nomnomlCleaned_idempotent.
Qed.

End DispatcherClaims.

(* ================================================================== *)
(** ** The preview effect and the insertion handler *)

(** Reads a field through the updates made to a state, without unfolding
    the updates it does not need. *)
Ltac fields :=
  cbn [syntax codeInput isLoading error hasValidDiagram vizInstance previewRef
       exportRef previewDiv exportDiv isSupported pending libCalls hostCalls
       renders addToDesignFinally addToDesignCatch setPending logHostCall
       setError setHasValidDiagram logRender appendLibCalls setContent
       setCodeInput setSyntax setIsLoading setVizInstance setIsSupported
       attachRefs contentOf resumeAfterUpload resumeAfterAddElement].

Section Handlers.

Variable L : Libs.

(** The preview effect renders the current text into the attached
    container and stores the outcome in [hasValidDiagram]. *)
Lemma previewEffect_shape (s : State) (c : Mount) :
  previewRef s = Some c ->
  exists b content cs e,
    (forall c' s',
        fst (renderDiagram L (syntax s) (vizInstance s) c' (codeInput s) s') = Normal b)
    /\ snd (previewEffect L s)
       = setError e
           (setHasValidDiagram b
              (logRender (attempt c (syntax s) (codeInput s) b)
                 (appendLibCalls cs (setContent c content s)))).
Proof.
  intros Hc.
  destruct (renderDiagram_shape L (syntax s) (vizInstance s) (codeInput s))
    as (b & content & cs & _ & H).
  exists b, content, cs.
  exists (if b then None
          else if negb (isEmpty (trim (codeInput s)))
               then Some msgInvalidSyntax else error s).
  split.
  - intros c' s'. now rewrite H.
  - unfold previewEffect, bind, get. rewrite Hc.
    unfold tryCatch, bind. rewrite H. unfold modify, ret.
    destruct b; [reflexivity|].
    destruct (negb (isEmpty (trim (codeInput s)))); [reflexivity|].
    destruct s; reflexivity.
Qed.

(** The insertion handler, once past its guard: the fresh render into the
    export container, then either the call of [upload] or the [catch]
    and [finally] blocks. *)
Lemma handleAddToDesign_shape (s : State) (fn : Feature) (c : Mount) :
  addElement s = Some fn ->
  exportRef s = Some c ->
  exists b content cs,
    (forall c' s',
        fst (renderDiagram L (syntax s) (vizInstance s) c' (codeInput s) s') = Normal b)
    /\ contentOf c (snd (renderDiagram L (syntax s) (vizInstance s) c (codeInput s) s))
       = content
    /\ handleAddToDesign L s
       = let s2 :=
           logRender (attempt c (syntax s) (codeInput s) b)
             (appendLibCalls cs
                (setContent c content (setError None (setIsLoading true s)))) in
         match (if b then querySelector "svg" content else None) with
         | Some svgElement =>
             setPending (AwaitingUpload fn)
               (logHostCall (CallUpload (uploadRequest (dataUrlOf L svgElement))) s2)
         | None => addToDesignFinally (addToDesignCatch s2)
         end.
Proof.
  intros Hfn Hc.
  destruct (renderDiagram_shape L (syntax s) (vizInstance s) (codeInput s))
    as (b & content & cs & _ & H).
  exists b, content, cs. split; [|split].
  - intros c' s'. now rewrite H.
  - rewrite H. destruct s, c; reflexivity.
  - unfold handleAddToDesign. rewrite Hfn, Hc.
    unfold exportAsset, bind, get.
    change (syntax (setError None (setIsLoading true s))) with (syntax s).
    change (vizInstance (setError None (setIsLoading true s))) with (vizInstance s).
    change (codeInput (setError None (setIsLoading true s))) with (codeInput s).
    rewrite H. cbv zeta.
    destruct b; simpl; [|reflexivity].
    replace (contentOf c
               (logRender (attempt c (syntax s) (codeInput s) true)
                  (appendLibCalls cs
                     (setContent c content (setError None (setIsLoading true s))))))
      with content by (destruct s, c; reflexivity).
    destruct (querySelector "svg" content); reflexivity.
Qed.

Lemma DiagramSyntax_eqb_eq (a b : DiagramSyntax) :
  DiagramSyntax_eqb a b = true <-> a = b.
Proof. destruct a, b; simpl; split; congruence. Qed.

Lemma Invariant_effect (s : State) :
  previewRef s = Some PreviewDiv ->
  exportRef s = Some ExportDiv ->
  (isLoading s = true <-> pending s <> NoPending) ->
  Invariant L (snd (previewEffect L s)).
Proof.
  intros Hp He Hl.
  destruct (previewEffect_shape s PreviewDiv Hp) as (b & content & cs & e & Hb & ->).
  unfold Invariant. fields. repeat split; try assumption; try apply Hl.
  now exists (renders s), PreviewDiv.
Qed.

Lemma Invariant_mounted (supported : Feature -> bool) :
  Invariant L (mounted L supported).
Proof.
  unfold mounted. apply Invariant_effect.
  - reflexivity.
  - reflexivity.
  - split; [intros H; discriminate H|intros H; exfalso; now apply H].
Qed.

Lemma Invariant_commit (prev next : State) :
  previewRef next = Some PreviewDiv ->
  exportRef next = Some ExportDiv ->
  (isLoading next = true <-> pending next <> NoPending) ->
  (codeInput prev = codeInput next -> syntax prev = syntax next ->
   Invariant L next) ->
  Invariant L (commit L prev next).
Proof.
  intros Hp He Hl Hsame. unfold commit.
  destruct (String.eqb (codeInput prev) (codeInput next)) eqn:E1;
    [destruct (DiagramSyntax_eqb (syntax prev) (syntax next)) eqn:E2|]; simpl.
  - apply Hsame; [now apply String.eqb_eq|now apply DiagramSyntax_eqb_eq].
  - now apply Invariant_effect.
  - now apply Invariant_effect.
Qed.

Lemma Invariant_step (s s' : State) (e : Event) :
  Invariant L s -> step L s e = Some s' -> Invariant L s'.
Proof.
  intros (Hp & He & (rs & c0 & Hr) & Hv & Hl) Hstep.
  destruct e as [value|newSyntax|viz|supported| |result|result]; simpl in Hstep.
  - (* Keystroke *)
    inversion Hstep; subst s'; clear Hstep.
    apply Invariant_commit; try assumption.
    fields. intros Hcode _. unfold Invariant. fields. rewrite <- Hcode.
    repeat split; try assumption; try apply Hl. now exists rs, c0.
  - (* SelectSyntax *)
    inversion Hstep; subst s'; clear Hstep.
    apply Invariant_commit; try assumption.
    unfold handleSyntaxChange, bind, modify. fields.
    intros Hcode Hsy. unfold Invariant. fields. rewrite <- Hcode, <- Hsy.
    repeat split; try assumption; try apply Hl. now exists rs, c0.
  - (* VizReady *)
    destruct (vizInstance s); [discriminate|].
    inversion Hstep; subst s'; clear Hstep.
    now apply Invariant_effect.
  - (* FeatureSupportChanged *)
    inversion Hstep; subst s'; clear Hstep.
    unfold Invariant. fields.
    repeat split; try assumption; try apply Hl. now exists rs, c0.
  - (* ClickAddToDesign *)
    destruct (buttonDisabled s) eqn:Hd; [discriminate|].
    inversion Hstep; subst s'; clear Hstep.
    unfold buttonDisabled in Hd.
    destruct (addElement s) as [fn|] eqn:Hfn; [|discriminate].
    simpl in Hd. apply orb_false_iff in Hd. destruct Hd as [Hld Hvd].
    apply negb_false_iff in Hvd.
    destruct (handleAddToDesign_shape s fn ExportDiv Hfn He)
      as (b & content & cs & Hb & _ & ->).
    assert (b = hasValidDiagram s) as ->.
    { specialize (Hb PreviewDiv s). rewrite Hv in Hb. congruence. }
    cbv zeta.
    destruct (if hasValidDiagram s then querySelector "svg" content else None);
      unfold Invariant; fields;
      (split; [assumption|split; [assumption|split; [|split; [assumption|]]]]);
      try (now exists (renders s), ExportDiv);
      split; intros H; try discriminate; congruence.
  - (* UploadSettled *)
    destruct (pending s) as [|fn|] eqn:Hpd; try discriminate.
    inversion Hstep; subst s'; clear Hstep.
    assert (isLoading s = true) as Hload by (apply Hl; discriminate).
    destruct result as [ref|]; unfold resumeAfterUpload, Invariant; fields;
      (split; [assumption|split; [assumption|split; [|split; [assumption|]]]]);
      try (now exists rs, c0);
      split; intros H; try discriminate; congruence.
  - (* AddElementSettled *)
    destruct (pending s) as [|fn|] eqn:Hpd; try discriminate.
    inversion Hstep; subst s'; clear Hstep.
    destruct result as [u|]; unfold resumeAfterAddElement, Invariant; fields;
      (split; [assumption|split; [assumption|split; [|split; [assumption|]]]]);
      try (now exists rs, c0);
      split; intros H; try discriminate; congruence.
Qed.

Lemma Invariant_run (events : list Event) (s s' : State) :
  Invariant L s -> run L s events = Some s' -> Invariant L s'.
Proof.
  revert s. induction events as [|e events IH]; simpl; intros s Hs Hrun.
  - now inversion Hrun; subst.
  - destruct (step L s e) as [s1|] eqn:E; [|discriminate].
    apply (IH s1); [|assumption]. now apply (Invariant_step s s1 e).
Qed.

End Handlers.

(* ================================================================== *)
(** ** Claims about the component as a whole *)

Section ComponentClaims.

Variable L : Libs.

Lemma buttonDisabled_false (s : State) :
  buttonDisabled s = false ->
  addElement s <> None /\ isLoading s = false /\ hasValidDiagram s = true.
Proof.
  unfold buttonDisabled. intros H.
  apply orb_false_iff in H. destruct H as [H Hv].
  apply orb_false_iff in H. destruct H as [Ha Hl].
  apply negb_false_iff in Hv.
  destruct (addElement s); [|discriminate].
  repeat split; try assumption. discriminate.
Qed.

(** C1.  In every state the mounted component reaches, the most recent
    render attempt was made for the current text and syntax and
    [hasValidDiagram] is its outcome (which is the outcome of any render
    of that text); and the button is enabled only when the flag is true,
    an entry point is usable and no insertion is in progress. *)
Theorem validity_flag_tracks_last_render
    (supported : Feature -> bool) (events : list Event) (s : State) :
  run L (mounted L supported) events = Some s ->
  (exists rs c,
      renders s
      = (rs ++ [attempt c (syntax s) (codeInput s) (hasValidDiagram s)])%list)
  /\ (forall c s',
         fst (renderDiagram L (syntax s) (vizInstance s) c (codeInput s) s')
         = Normal (hasValidDiagram s))
  /\ (buttonDisabled s = false ->
      hasValidDiagram s = true /\ addElement s <> None
      /\ isLoading s = false /\ pending s = NoPending).
Proof.
  intros Hrun.
  destruct (Invariant_run L events _ s (Invariant_mounted L supported) Hrun)
    as (_ & _ & Hr & Hv & Hl).
  split; [exact Hr|split; [exact Hv|]].
  intros Hd. destruct (buttonDisabled_false s Hd) as (Ha & Hload & Hflag).
  repeat split; try assumption.
  destruct (pending s) eqn:E; [reflexivity| |].
  - assert (isLoading s = true) by (apply Hl; discriminate). congruence.
  - assert (isLoading s = true) by (apply Hl; discriminate). congruence.
Qed.

Lemma addToDesign_ends (s : State) (u : completion string) (a : completion unit) :
  pending s = NoPending -> isLoading s = false ->
  isLoading (addToDesign L u a s) = false /\ pending (addToDesign L u a s) = NoPending.
Proof.
  intros Hp Hl. unfold addToDesign.
  destruct (addElement s) as [fn|] eqn:Hfn.
  - destruct (exportRef s) as [c|] eqn:Hc.
    + destruct (handleAddToDesign_shape L s fn c Hfn Hc)
        as (b & content & cs & _ & _ & ->).
      cbv zeta.
      destruct (if b then querySelector "svg" content else None).
      * destruct u as [ref|]; [destruct a as [x|]|]; split; reflexivity.
      * split; reflexivity.
    + unfold handleAddToDesign. rewrite Hfn, Hc, Hp. now split.
  - unfold handleAddToDesign. rewrite Hfn, Hp. now split.
Qed.

(** C8.  In every state the mounted component reaches, [isLoading] is
    true exactly while a run of [handleAddToDesign] is suspended at one of
    its two [await]s: it is false when the button can be clicked, a run
    that gets past the guard either reaches the [upload] call with the
    flag true or has already ended with the flag false, and however the
    two promises settle the flag is false when the run has ended. *)
Theorem busy_flag_spans_insertion
    (supported : Feature -> bool) (events : list Event) (s : State) :
  run L (mounted L supported) events = Some s ->
  (isLoading s = true <-> pending s <> NoPending)
  /\ (buttonDisabled s = false -> isLoading s = false)
  /\ (forall fn c,
         addElement s = Some fn -> exportRef s = Some c ->
         (pending (handleAddToDesign L s) = AwaitingUpload fn
          /\ isLoading (handleAddToDesign L s) = true)
         \/ (pending (handleAddToDesign L s) = NoPending
             /\ isLoading (handleAddToDesign L s) = false))
  /\ (forall u a,
         pending s = NoPending ->
         isLoading (addToDesign L u a s) = false
         /\ pending (addToDesign L u a s) = NoPending).
Proof.
  intros Hrun.
  destruct (Invariant_run L events _ s (Invariant_mounted L supported) Hrun)
    as (_ & _ & _ & _ & Hl).
  split; [exact Hl|split; [|split]].
  - intros Hd. now destruct (buttonDisabled_false s Hd) as (_ & H & _).
  - intros fn c Hfn Hc.
    destruct (handleAddToDesign_shape L s fn c Hfn Hc)
      as (b & content & cs & _ & _ & ->).
    cbv zeta.
    destruct (if b then querySelector "svg" content else None).
    + left. split; reflexivity.
    + right. split; reflexivity.
  - intros u a Hp. apply addToDesign_ends; [assumption|].
    destruct (isLoading s) eqn:E; [|reflexivity].
    exfalso. now apply Hl.
Qed.

Lemma vizInstance_effect (s : State) :
  vizInstance (snd (previewEffect L s)) = vizInstance s.
Proof.
  destruct (previewRef s) as [c|] eqn:Hc.
  - destruct (previewEffect_shape L s c Hc) as (b & content & cs & e & _ & ->).
    reflexivity.
  - unfold previewEffect, bind, get. now rewrite Hc.
Qed.

Lemma vizInstance_commit (prev next : State) :
  vizInstance (commit L prev next) = vizInstance next.
Proof.
  unfold commit.
  destruct (String.eqb (codeInput prev) (codeInput next)
            && DiagramSyntax_eqb (syntax prev) (syntax next)).
  - reflexivity.
  - apply vizInstance_effect.
Qed.

Lemma vizInstance_handleAddToDesign (s : State) :
  vizInstance (handleAddToDesign L s) = vizInstance s.
Proof.
  destruct (addElement s) as [fn|] eqn:Hfn.
  - destruct (exportRef s) as [c|] eqn:Hc.
    + destruct (handleAddToDesign_shape L s fn c Hfn Hc)
        as (b & content & cs & _ & _ & ->).
      cbv zeta.
      destruct (if b then querySelector "svg" content else None); reflexivity.
    + unfold handleAddToDesign. now rewrite Hfn, Hc.
  - unfold handleAddToDesign. now rewrite Hfn.
Qed.

Lemma vizInstance_step (s s' : State) (e : Event) :
  isVizReady e = false -> step L s e = Some s' -> vizInstance s' = vizInstance s.
Proof.
  intros He Hstep.
  destruct e as [value|newSyntax|viz|supported| |result|result];
    simpl in Hstep; try discriminate.
  - inversion Hstep; subst. now rewrite vizInstance_commit.
  - inversion Hstep; subst. now rewrite vizInstance_commit.
  - inversion Hstep; subst. reflexivity.
  - destruct (buttonDisabled s); [discriminate|].
    inversion Hstep; subst. apply vizInstance_handleAddToDesign.
  - destruct (pending s); try discriminate.
    inversion Hstep; subst. now destruct result.
  - destruct (pending s); try discriminate.
    inversion Hstep; subst. now destruct result.
Qed.

Lemma vizInstance_run (events : list Event) (s s' : State) :
  forallb (fun e => negb (isVizReady e)) events = true ->
  run L s events = Some s' -> vizInstance s' = vizInstance s.
Proof.
  revert s. induction events as [|e events IH]; simpl; intros s Hev Hrun.
  - now inversion Hrun.
  - apply andb_true_iff in Hev. destruct Hev as [He Hev].
    apply negb_true_iff in He.
    destruct (step L s e) as [s1|] eqn:E; [|discriminate].
    rewrite (IH s1 Hev Hrun). now apply (vizInstance_step s s1 e).
Qed.

(** C9.  As long as [instance()] has not resolved, the component holds no
    renderer instance, and a graph render made with what it holds returns
    [false] for every text: it does not throw, makes no call, and leaves
    the container empty. *)
Theorem graphviz_not_ready_fails
    (supported : Feature -> bool) (events : list Event) (s : State) :
  forallb (fun e => negb (isVizReady e)) events = true ->
  run L (mounted L supported) events = Some s ->
  vizInstance s = None
  /\ forall c code s',
       fst (renderDiagram L graphviz (vizInstance s) c code s') = Normal false
       /\ libCalls (snd (renderDiagram L graphviz (vizInstance s) c code s'))
          = libCalls s'
       /\ contentOf c (snd (renderDiagram L graphviz (vizInstance s) c code s')) = [].
Proof.
  intros Hev Hrun.
  assert (vizInstance s = None) as Hv.
  { rewrite (vizInstance_run events _ s Hev Hrun).
    unfold mounted. now rewrite vizInstance_effect. }
  split; [exact Hv|].
  intros c code s'. rewrite Hv.
  unfold renderDiagram, renderDiagramBody, tryCatch, bind, setInnerHTML,
    modify, ret.
  destruct (isEmpty (trim code)); destruct s', c; simpl; auto.
Qed.

(** C10.  When no entry point is usable, or the export container is not
    attached, [handleAddToDesign] returns at once and the state, with its
    history of calls and renders, is what it was. *)
Theorem insertion_guard_returns_unchanged (s : State) :
  addElement s = None \/ exportRef s = None -> handleAddToDesign L s = s.
Proof.
  unfold handleAddToDesign. intros [H|H]; rewrite H.
  - reflexivity.
  - now destruct (addElement s).
Qed.

(** C3, as the code has it.  A run of [handleAddToDesign] that gets past
    its guard makes no host call when the export render fails or leaves no
    [svg] element; otherwise it makes exactly one [upload] call, followed
    by exactly one [addElement] call with the uploaded reference when the
    upload succeeds, and by nothing when the upload is rejected. *)
Theorem insertion_host_calls
    (s : State) (fn : Feature) (c : Mount)
    (u : completion string) (a : completion unit) :
  pending s = NoPending ->
  addElement s = Some fn ->
  exportRef s = Some c ->
  exists new,
    hostCalls (addToDesign L u a s) = (hostCalls s ++ new)%list /\
    match fst (renderDiagram L (syntax s) (vizInstance s) c (codeInput s) s) with
    | Normal true =>
        match querySelector "svg"
                (contentOf c
                   (snd (renderDiagram L (syntax s) (vizInstance s) c (codeInput s) s)))
        with
        | Some svgElement =>
            match u with
            | Normal ref =>
                new = [CallUpload (uploadRequest (dataUrlOf L svgElement));
                       CallAddElement fn (imageElement ref)]
            | Abrupt => new = [CallUpload (uploadRequest (dataUrlOf L svgElement))]
            end
        | None => new = []
        end
    | _ => new = []
    end.
Proof.
  intros Hp Hfn Hc.
  destruct (handleAddToDesign_shape L s fn c Hfn Hc)
    as (b & content & cs & Hb & Hcontent & Hshape).
  unfold addToDesign. rewrite Hshape, (Hb c s), Hcontent. cbv zeta.
  destruct b; simpl.
  - destruct (querySelector "svg" content) as [svgElement|].
    + destruct u as [ref|].
      * eexists. split; [|reflexivity].
        destruct a; fields; now rewrite <- app_assoc.
      * eexists. split; [|reflexivity]. reflexivity.
    + exists []. split; [|reflexivity]. fields. now rewrite app_nil_r.
  - exists []. split; [|reflexivity]. fields. now rewrite app_nil_r.
Qed.

End ComponentClaims.

(* ================================================================== *)
(** ** Packaging *)

Section Packaging.

Lemma lookupAttr_update_same (name value : string) (attrs : list (string * string)) :
  lookupAttr name (updateAttr name value attrs) = Some value.
Proof.
  induction attrs as [|[n v] attrs IH]; simpl.
  - now rewrite String.eqb_refl.
  - destruct (String.eqb n name) eqn:E; simpl; now rewrite E.
Qed.

Lemma lookupAttr_update_other (name name' value : string)
    (attrs : list (string * string)) :
  name' <> name ->
  lookupAttr name' (updateAttr name value attrs) = lookupAttr name' attrs.
Proof.
  intros Hne. induction attrs as [|[n v] attrs IH]; simpl.
  - destruct (String.eqb name name') eqn:E; [|reflexivity].
    apply String.eqb_eq in E. congruence.
  - destruct (String.eqb n name) eqn:E; simpl.
    + apply String.eqb_eq in E. subst n.
      destruct (String.eqb name name') eqn:F; [|reflexivity].
      apply String.eqb_eq in F. congruence.
    + now rewrite IH.
Qed.

(** The element that is serialized: the attributes of the rendered one
    with the viewport rectangle, the width and the height set in that
    order, and the background rectangle before the children. *)
Lemma packageSvg_unfold (t : string) (attrs : list (string * string))
    (ch : list node) :
  packageSvg (Element t attrs ch)
  = let width := parseFloat (orElse (lookupAttr "width" attrs) "400") in
    let height := parseFloat (orElse (lookupAttr "height" attrs) "300") in
    let attrs1 :=
      match lookupAttr "viewBox" attrs with
      | Some (String _ _ as viewBox) =>
          let parts := map parseFloat (splitRuns isSpaceOrComma false viewBox) in
          updateAttr "viewBox"
            (numberToString (nullish (nth_error parts 0) 0 - padding)%float ++ " " ++
             numberToString (nullish (nth_error parts 1) 0 - padding)%float ++ " " ++
             numberToString (nullish (nth_error parts 2) width + padding * 2)%float ++ " " ++
             numberToString (nullish (nth_error parts 3) height + padding * 2)%float)
            attrs
      | _ => attrs
      end in
    Element t
      (updateAttr "height" (numberToString (height + padding * 2)%float)
         (updateAttr "width" (numberToString (width + padding * 2)%float) attrs1))
      (backgroundRect :: ch).
Proof.
  unfold packageSvg. cbv zeta.
  unfold getAttribute, cloneNode.
  destruct (lookupAttr "viewBox" attrs) as [[|a vb]|]; reflexivity.
Qed.

Lemma packaged_width (t : string) (attrs : list (string * string)) (ch : list node) :
  getAttribute (packageSvg (Element t attrs ch)) "width"
  = Some (numberToString
            (parseFloat (orElse (lookupAttr "width" attrs) "400") + padding * 2)%float).
Proof.
  rewrite packageSvg_unfold. cbv zeta. unfold getAttribute.
  rewrite lookupAttr_update_other by discriminate.
  apply lookupAttr_update_same.
Qed.

Lemma packaged_height (t : string) (attrs : list (string * string)) (ch : list node) :
  getAttribute (packageSvg (Element t attrs ch)) "height"
  = Some (numberToString
            (parseFloat (orElse (lookupAttr "height" attrs) "300") + padding * 2)%float).
Proof.
  rewrite packageSvg_unfold. cbv zeta. unfold getAttribute.
  apply lookupAttr_update_same.
Qed.

(** C2, as the code has it.  The packaged width and height are the
    numbers read by [parseFloat] from the declared attributes, plus 20 on
    each side; an attribute that is absent or empty is read as 400,
    respectively 300, so that the packaged value is 440, respectively 340;
    and an element declaring width 400 and height 300 is packaged with
    width 440 and height 340. *)
Theorem packaged_size (t : string) (attrs : list (string * string)) (ch : list node) :
  getAttribute (packageSvg (Element t attrs ch)) "width"
  = Some (numberToString
            (parseFloat (orElse (getAttribute (Element t attrs ch) "width") "400")
             + 20 * 2)%float)
  /\ getAttribute (packageSvg (Element t attrs ch)) "height"
     = Some (numberToString
               (parseFloat (orElse (getAttribute (Element t attrs ch) "height") "300")
                + 20 * 2)%float)
  /\ (getAttribute (Element t attrs ch) "width" = None
      \/ getAttribute (Element t attrs ch) "width" = Some EmptyString ->
      getAttribute (packageSvg (Element t attrs ch)) "width" = Some "440")
  /\ (getAttribute (Element t attrs ch) "height" = None
      \/ getAttribute (Element t attrs ch) "height" = Some EmptyString ->
      getAttribute (packageSvg (Element t attrs ch)) "height" = Some "340")
  /\ (getAttribute (Element t attrs ch) "width" = Some "400" ->
      getAttribute (Element t attrs ch) "height" = Some "300" ->
      getAttribute (packageSvg (Element t attrs ch)) "width" = Some "440"
      /\ getAttribute (packageSvg (Element t attrs ch)) "height" = Some "340").
Proof.
  rewrite packaged_width, packaged_height. unfold getAttribute.
  split; [reflexivity|split; [reflexivity|split; [|split]]].
  - intros [H|H]; rewrite H; vm_compute; reflexivity.
  - intros [H|H]; rewrite H; vm_compute; reflexivity.
  - intros Hw Hh. rewrite Hw, Hh. split; vm_compute; reflexivity.
Qed.

(** C7, as the code has it.  A [viewBox] that is not empty is split on
    the runs of white space and commas, each field is read by
    [parseFloat], and the first four values are taken for [x y w h], a
    missing [x] or [y] being 0 and a missing [w] or [h] the width or
    height read from the element; the packaged element is the rendered
    one with [viewBox] set to [x-20 y-20 w+40 h+40], then its width and
    height set, and the background rectangle added.  So a rectangle whose
    first four fields read as [x y w h] is packaged as
    [x-20 y-20 w+40 h+40], and [0 0 100 50] becomes [-20 -20 140 90].
    When the [viewBox] is absent or empty the packaged element is the
    rendered one with its width and height set and the background
    rectangle added, every other attribute being what it was. *)
Theorem packaged_viewBox (t : string) (attrs : list (string * string)) (ch : list node) :
  (forall a vb,
      getAttribute (Element t attrs ch) "viewBox" = Some (String a vb) ->
      let parts := map parseFloat (splitRuns isSpaceOrComma false (String a vb)) in
      let width :=
        parseFloat (orElse (getAttribute (Element t attrs ch) "width") "400") in
      let height :=
        parseFloat (orElse (getAttribute (Element t attrs ch) "height") "300") in
      let box :=
        numberToString (nullish (nth_error parts 0) 0 - 20)%float ++ " "
        ++ numberToString (nullish (nth_error parts 1) 0 - 20)%float ++ " "
        ++ numberToString (nullish (nth_error parts 2) width + 20 * 2)%float ++ " "
        ++ numberToString (nullish (nth_error parts 3) height + 20 * 2)%float in
      packageSvg (Element t attrs ch)
      = Element t
          (updateAttr "height" (numberToString (height + 20 * 2)%float)
             (updateAttr "width" (numberToString (width + 20 * 2)%float)
                (updateAttr "viewBox" box attrs)))
          (backgroundRect :: ch)
      /\ getAttribute (packageSvg (Element t attrs ch)) "viewBox" = Some box)
  /\ (forall vb x y w h rest,
         getAttribute (Element t attrs ch) "viewBox" = Some vb ->
         map parseFloat (splitRuns isSpaceOrComma false vb) = x :: y :: w :: h :: rest ->
         getAttribute (packageSvg (Element t attrs ch)) "viewBox"
         = Some (numberToString (x - 20)%float ++ " "
                 ++ numberToString (y - 20)%float ++ " "
                 ++ numberToString (w + 20 * 2)%float ++ " "
                 ++ numberToString (h + 20 * 2)%float))
  /\ (getAttribute (Element t attrs ch) "viewBox" = Some "0 0 100 50" ->
      getAttribute (packageSvg (Element t attrs ch)) "viewBox" = Some "-20 -20 140 90")
  /\ (getAttribute (Element t attrs ch) "viewBox" = None
      \/ getAttribute (Element t attrs ch) "viewBox" = Some EmptyString ->
      packageSvg (Element t attrs ch)
      = Element t
          (updateAttr "height"
             (numberToString
                (parseFloat (orElse (lookupAttr "height" attrs) "300") + 20 * 2)%float)
             (updateAttr "width"
                (numberToString
                   (parseFloat (orElse (lookupAttr "width" attrs) "400") + 20 * 2)%float)
                attrs))
          (backgroundRect :: ch)
      /\ forall name,
           name <> "width" -> name <> "height" ->
           getAttribute (packageSvg (Element t attrs ch)) name
           = getAttribute (Element t attrs ch) name).
Proof.
  assert (forall a vb,
             lookupAttr "viewBox" attrs = Some (String a vb) ->
             let parts :=
               map parseFloat (splitRuns isSpaceOrComma false (String a vb)) in
             let width := parseFloat (orElse (lookupAttr "width" attrs) "400") in
             let height := parseFloat (orElse (lookupAttr "height" attrs) "300") in
             let box :=
               numberToString (nullish (nth_error parts 0) 0 - 20)%float ++ " "
               ++ numberToString (nullish (nth_error parts 1) 0 - 20)%float ++ " "
               ++ numberToString (nullish (nth_error parts 2) width + 20 * 2)%float
               ++ " "
               ++ numberToString (nullish (nth_error parts 3) height + 20 * 2)%float in
             packageSvg (Element t attrs ch)
             = Element t
                 (updateAttr "height" (numberToString (height + 20 * 2)%float)
                    (updateAttr "width" (numberToString (width + 20 * 2)%float)
                       (updateAttr "viewBox" box attrs)))
                 (backgroundRect :: ch)
             /\ getAttribute (packageSvg (Element t attrs ch)) "viewBox" = Some box)
    as Hgen.
  { intros a vb Hvb. cbv zeta.
    rewrite packageSvg_unfold. cbv zeta. rewrite Hvb.
    split; [reflexivity|]. unfold getAttribute.
    rewrite !lookupAttr_update_other by discriminate.
    apply lookupAttr_update_same. }
  assert (forall vb x y w h rest,
             lookupAttr "viewBox" attrs = Some vb ->
             map parseFloat (splitRuns isSpaceOrComma false vb)
             = x :: y :: w :: h :: rest ->
             getAttribute (packageSvg (Element t attrs ch)) "viewBox"
             = Some (numberToString (x - 20)%float ++ " "
                     ++ numberToString (y - 20)%float ++ " "
                     ++ numberToString (w + 20 * 2)%float ++ " "
                     ++ numberToString (h + 20 * 2)%float)) as Hfour.
  { intros vb x y w h rest Hvb Hparts.
    destruct vb as [|a vb]; [discriminate|].
    destruct (Hgen a vb Hvb) as (_ & Hbox). cbv zeta in Hbox.
    rewrite Hparts in Hbox. exact Hbox. }
  split; [exact Hgen|split; [exact Hfour|split]].
  - intros Hvb. simpl in Hvb.
    rewrite (Hfour _ 0%float 0%float 100%float 50%float [] Hvb)
      by (vm_compute; reflexivity).
    vm_compute. reflexivity.
  - intros Hvb. simpl in Hvb.
    assert (packageSvg (Element t attrs ch)
            = Element t
                (updateAttr "height"
                   (numberToString
                      (parseFloat (orElse (lookupAttr "height" attrs) "300") + 20 * 2)%float)
                   (updateAttr "width"
                      (numberToString
                         (parseFloat (orElse (lookupAttr "width" attrs) "400") + 20 * 2)%float)
                      attrs))
                (backgroundRect :: ch)) as E.
    { rewrite packageSvg_unfold. cbv zeta.
      destruct Hvb as [Hvb|Hvb]; rewrite Hvb; reflexivity. }
    split; [exact E|].
    intros name Hw Hh. rewrite E. unfold getAttribute.
    now rewrite !lookupAttr_update_other.
Qed.

End Packaging.

(* ================================================================== *)
(** ** The statements on concrete inputs *)

Lemma blank_text_fails_without_rendering_witness :
  allWhiteSpace blankText = true
  /\ fst (renderDiagram sampleLibs nomnoml None PreviewDiv blankText readyState)
     = Normal false
  /\ contentOf PreviewDiv
       (snd (renderDiagram sampleLibs nomnoml None PreviewDiv blankText readyState))
     = []
  /\ libCalls
       (snd (renderDiagram sampleLibs nomnoml None PreviewDiv blankText readyState))
     = libCalls readyState
  /\ hostCalls
       (snd (renderDiagram sampleLibs nomnoml None PreviewDiv blankText readyState))
     = hostCalls readyState.
Proof.
  split; [reflexivity|].
  apply (blank_text_fails_without_rendering sampleLibs nomnoml None PreviewDiv
           blankText readyState).
  reflexivity.
Defined.

Lemma renderDiagram_clears_and_catches_witness :
  libraryThrows sampleLibs wavedrom None brokenTiming
  /\ fst (renderDiagram sampleLibs wavedrom None PreviewDiv brokenTiming readyState)
     = Normal false
  /\ contentOf PreviewDiv
       (snd (renderDiagram sampleLibs wavedrom None PreviewDiv brokenTiming readyState))
     = [].
Proof.
  assert (libraryThrows sampleLibs wavedrom None brokenTiming) as H
    by (vm_compute; exact I).
  split; [exact H|].
  destruct (renderDiagram_clears_and_catches sampleLibs wavedrom None PreviewDiv
              brokenTiming readyState) as (_ & _ & Hthrow).
  exact (Hthrow H).
Defined.

Lemma nomnoml_trailing_space_irrelevant_witness :
  differOnlyInTrailingSpace umlTextA umlTextB
  /\ nomnomlCleaned umlTextA = nomnomlCleaned umlTextB
  /\ (forall viz c s,
         renderDiagramBody sampleLibs nomnoml viz c umlTextA s
         = renderDiagramBody sampleLibs nomnoml viz c umlTextB s)
  /\ (forall x, nomnomlCleaned (nomnomlCleaned x) = nomnomlCleaned x).
Proof.
  assert (differOnlyInTrailingSpace umlTextA umlTextB) as H.
  { unfold differOnlyInTrailingSpace.
    change (split LF umlTextA) with ["[A] -> [B]  "; "[B]"].
    change (split LF umlTextB)
      with ["[A] -> [B]"; "[B] " ++ String (ascii_of_nat 9) EmptyString].
    constructor.
    - exists "[A] -> [B]", "  ", EmptyString. repeat split; reflexivity.
    - constructor; [|constructor].
      exists "[B]", EmptyString, (" " ++ String (ascii_of_nat 9) EmptyString).
      repeat split; reflexivity. }
  split; [exact H|].
  exact (nomnoml_trailing_space_irrelevant sampleLibs umlTextA umlTextB H).
Defined.

Lemma validity_flag_tracks_last_render_witness :
  run sampleLibs (mounted sampleLibs onlyAtPoint) editingEvents
  = Some (stateAfter sampleLibs onlyAtPoint editingEvents)
  /\ (exists rs c,
         renders (stateAfter sampleLibs onlyAtPoint editingEvents)
         = (rs ++ [attempt c
                     (syntax (stateAfter sampleLibs onlyAtPoint editingEvents))
                     (codeInput (stateAfter sampleLibs onlyAtPoint editingEvents))
                     (hasValidDiagram
                        (stateAfter sampleLibs onlyAtPoint editingEvents))])%list).
Proof.
  assert (run sampleLibs (mounted sampleLibs onlyAtPoint) editingEvents
          = Some (stateAfter sampleLibs onlyAtPoint editingEvents)) as H
    by (vm_compute; reflexivity).
  split; [exact H|].
  exact (proj1 (validity_flag_tracks_last_render sampleLibs onlyAtPoint
                  editingEvents _ H)).
Defined.

Lemma busy_flag_spans_insertion_witness :
  run sampleLibs (mounted sampleLibs onlyAtPoint) rejectedUploadEvents
  = Some (stateAfter sampleLibs onlyAtPoint rejectedUploadEvents)
  /\ (isLoading (stateAfter sampleLibs onlyAtPoint rejectedUploadEvents) = true
      <-> pending (stateAfter sampleLibs onlyAtPoint rejectedUploadEvents)
          <> NoPending).
Proof.
  assert (run sampleLibs (mounted sampleLibs onlyAtPoint) rejectedUploadEvents
          = Some (stateAfter sampleLibs onlyAtPoint rejectedUploadEvents)) as H
    by (vm_compute; reflexivity).
  split; [exact H|].
  exact (proj1 (busy_flag_spans_insertion sampleLibs onlyAtPoint
                  rejectedUploadEvents _ H)).
Defined.

Lemma graphviz_not_ready_fails_witness :
  forallb (fun e => negb (isVizReady e)) earlyEvents = true
  /\ run sampleLibs (mounted sampleLibs onlyAtPoint) earlyEvents
     = Some (stateAfter sampleLibs onlyAtPoint earlyEvents)
  /\ vizInstance (stateAfter sampleLibs onlyAtPoint earlyEvents) = None.
Proof.
  assert (run sampleLibs (mounted sampleLibs onlyAtPoint) earlyEvents
          = Some (stateAfter sampleLibs onlyAtPoint earlyEvents)) as H
    by (vm_compute; reflexivity).
  split; [reflexivity|split; [exact H|]].
  exact (proj1 (graphviz_not_ready_fails sampleLibs onlyAtPoint earlyEvents _
                  eq_refl H)).
Defined.

Lemma insertion_guard_returns_unchanged_witness :
  addElement (mounted sampleLibs nothingSupported) = None
  /\ handleAddToDesign sampleLibs (mounted sampleLibs nothingSupported)
     = mounted sampleLibs nothingSupported.
Proof.
  split; [reflexivity|].
  apply (insertion_guard_returns_unchanged sampleLibs
           (mounted sampleLibs nothingSupported)).
  left. reflexivity.
Defined.

Lemma insertion_host_calls_witness :
  pending readyState = NoPending
  /\ addElement readyState = Some addElementAtPoint
  /\ exportRef readyState = Some ExportDiv
  /\ exists new,
       hostCalls (addToDesign sampleLibs (Normal "ref-1") (Normal tt) readyState)
       = (hostCalls readyState ++ new)%list
       /\ new = [CallUpload (uploadRequest "data:image/svg+xml;base64,<svg/>");
                 CallAddElement addElementAtPoint (imageElement "ref-1")].
Proof.
  assert (pending readyState = NoPending) as Hp by (vm_compute; reflexivity).
  assert (addElement readyState = Some addElementAtPoint) as Hfn
    by (vm_compute; reflexivity).
  assert (exportRef readyState = Some ExportDiv) as Hc by (vm_compute; reflexivity).
  split; [exact Hp|split; [exact Hfn|split; [exact Hc|]]].
  destruct (insertion_host_calls sampleLibs readyState addElementAtPoint ExportDiv
              (Normal "ref-1") (Normal tt) Hp Hfn Hc) as (new & Hcalls & Hnew).
  exists new. split; [exact Hcalls|].
  vm_compute in Hnew. exact Hnew.
Defined.

Lemma packaged_size_witness :
  getAttribute plainSvg "width" = Some "400"
  /\ getAttribute plainSvg "height" = Some "300"
  /\ getAttribute plainSvg "viewBox" = None
  /\ getAttribute (packageSvg plainSvg) "width" = Some "440"
  /\ getAttribute (packageSvg plainSvg) "height" = Some "340".
Proof.
  split; [reflexivity|split; [reflexivity|split; [reflexivity|]]].
  destruct (packaged_size "svg" [("width", "400"); ("height", "300")]
              [Element "g" [] []]) as (_ & _ & _ & _ & H).
  apply H; reflexivity.
Defined.

Lemma packaged_viewBox_witness :
  getAttribute boxedSvg "viewBox" = Some "0 0 100 50"
  /\ getAttribute (packageSvg boxedSvg) "viewBox" = Some "-20 -20 140 90"
  /\ getAttribute trailingBoxSvg "viewBox" = Some "0 0 100 50 "
  /\ getAttribute (packageSvg trailingBoxSvg) "viewBox" = Some "-20 -20 140 90"
  /\ getAttribute junkBoxSvg "viewBox" = Some "none"
  /\ getAttribute (packageSvg junkBoxSvg) "viewBox" = Some "NaN -20 440 340".
Proof.
  split; [reflexivity|split].
  - destruct (packaged_viewBox "svg" [("viewBox", "0 0 100 50")] [Element "g" [] []])
      as (_ & _ & H & _).
    apply H. reflexivity.
  - split; [reflexivity|split].
    + destruct (packaged_viewBox "svg" [("viewBox", "0 0 100 50 ")] [])
        as (_ & H & _).
      unfold trailingBoxSvg.
      rewrite (H "0 0 100 50 " 0%float 0%float 100%float 50%float [nan] eq_refl)
        by (vm_compute; reflexivity).
      vm_compute. reflexivity.
    + split; [reflexivity|].
      destruct (packaged_viewBox "svg" [("viewBox", "none")] []) as (H & _).
      destruct (H "n"%char "one" eq_refl) as (_ & Hbox).
      unfold junkBoxSvg. rewrite Hbox. vm_compute. reflexivity.
Defined.

(** C7 as stated fails: the rectangle [0 0 100 50] written after a space
    is not packaged as [-20 -20 140 90]; the empty field before the space
    is read as NaN and the numbers move one place. *)
Lemma leading_space_viewBox_is_misread :
  getAttribute spacedBoxSvg "viewBox" = Some " 0 0 100 50"
  /\ getAttribute (packageSvg spacedBoxSvg) "viewBox" = Some "NaN -20 40 140"
  /\ getAttribute (packageSvg spacedBoxSvg) "viewBox" <> Some "-20 -20 140 90".
Proof.
  split; [reflexivity|].
  assert (getAttribute (packageSvg spacedBoxSvg) "viewBox" = Some "NaN -20 40 140")
    as H by (vm_compute; reflexivity).
  split; [exact H|]. rewrite H. discriminate.
Qed.

(** C2 as stated fails: a width that does not start with a number is not
    replaced by 400; it is read as NaN, and the packaged width is the
    string [NaN] instead of 440. *)
Lemma unparseable_width_is_not_defaulted :
  getAttribute oddSvg "width" = Some "abc"
  /\ parseFloat "abc" = nan
  /\ getAttribute (packageSvg oddSvg) "width" = Some "NaN"
  /\ getAttribute (packageSvg oddSvg) "width" <> Some "440".
Proof.
  split; [reflexivity|split; [vm_compute; reflexivity|]].
  assert (getAttribute (packageSvg oddSvg) "width" = Some "NaN") as H
    by (vm_compute; reflexivity).
  split; [exact H|]. rewrite H. discriminate.
Qed.

(** C3 as stated fails: the export render succeeds, the upload is
    rejected, and the run has made one [upload] call and no [addElement]
    call. *)
Lemma rejected_upload_makes_no_insertion :
  fst (renderDiagram sampleLibs (syntax readyState) (vizInstance readyState)
         ExportDiv (codeInput readyState) readyState) = Normal true
  /\ hostCalls readyState = []
  /\ List.length
       (filter isUpload
          (hostCalls (addToDesign sampleLibs Abrupt (Normal tt) readyState))) = 1
  /\ List.length
       (filter isAddElement
          (hostCalls (addToDesign sampleLibs Abrupt (Normal tt) readyState))) = 0.
Proof.
  repeat split; vm_compute; reflexivity.
Qed.

(* ================================================================== *)
(** ** Further properties of the dispatcher *)

Section DispatcherMore.

Variable L : Libs.

Lemma allWhiteSpace_trim (x : string) : allWhiteSpace (trim x) = isEmpty (trim x).
Proof. now rewrite <- (isEmpty_trim (trim x)), trim_idempotent. Qed.

Ltac run_done :=
  match goal with
  | s : State, c : Mount |- _ =>
      destruct s, c;
      cbn [fst snd appendLibCalls setContent logLibCall logRender contentOf
           syntax codeInput isLoading error hasValidDiagram vizInstance
           previewRef exportRef previewDiv exportDiv isSupported pending
           libCalls hostCalls renders];
      rewrite <- ?app_assoc, ?app_nil_r; try reflexivity
  end.

(** A run of [renderDiagram] writes into its container, adds to the
    histories of library calls and of render attempts, and touches nothing
    else: the cells of the component, the other container and the host
    calls are what they were. *)
Theorem renderDiagram_touches_only_its_container
    (sy : DiagramSyntax) (viz : option Viz) (c : Mount) (code : string) (s : State) :
  syntax (snd (renderDiagram L sy viz c code s)) = syntax s
  /\ codeInput (snd (renderDiagram L sy viz c code s)) = codeInput s
  /\ isLoading (snd (renderDiagram L sy viz c code s)) = isLoading s
  /\ error (snd (renderDiagram L sy viz c code s)) = error s
  /\ hasValidDiagram (snd (renderDiagram L sy viz c code s)) = hasValidDiagram s
  /\ pending (snd (renderDiagram L sy viz c code s)) = pending s
  /\ hostCalls (snd (renderDiagram L sy viz c code s)) = hostCalls s
  /\ (forall c', c' <> c ->
        contentOf c' (snd (renderDiagram L sy viz c code s)) = contentOf c' s)
  /\ (exists b,
         fst (renderDiagram L sy viz c code s) = Normal b
         /\ renders (snd (renderDiagram L sy viz c code s))
            = (renders s ++ [attempt c sy code b])%list).
Proof.
  destruct (renderDiagram_shape L sy viz code) as (b & content & cs & _ & H).
  rewrite H. cbn [fst snd].
  repeat split; try (destruct s; reflexivity).
  - intros c' Hc'. destruct s, c, c'; try reflexivity; congruence.
  - exists b. split; [reflexivity|]. destruct s; reflexivity.
Qed.

Lemma renderDiagram_true_iff
    (sy : DiagramSyntax) (viz : option Viz) (c : Mount) (code : string) (s : State) :
  fst (renderDiagram L sy viz c code s) = Normal true
  <-> allWhiteSpace code = false
      /\ (sy = graphviz -> viz <> None)
      /\ ~ libraryThrows L sy viz code.
Proof.
  rewrite <- isEmpty_trim.
  unfold renderDiagram, renderDiagramBody, tryCatch, bind, call, setInnerHTML,
    appendChild, modify, ret, libraryThrows.
  destruct (isEmpty (trim code)); cbn [fst].
  - split; [discriminate|]. intros (H & _). discriminate.
  - destruct sy.
    + destruct viz as [v|]; cbn [fst].
      * destruct (v code) as [svg|] eqn:E; cbn [fst].
        -- split; [|reflexivity]. intros _. repeat split; try discriminate.
           intros (v' & Hv & Hthrow). inversion Hv; subst. congruence.
        -- split; [discriminate|]. intros (_ & _ & H).
           exfalso. apply H. now exists v.
      * split; [discriminate|]. intros (_ & H & _). exfalso. now apply H.
    + destruct (nomnoml_renderSvg L (nomnomlCleaned code)) as [svg|]; cbn [fst].
      * split; [|reflexivity]. intros _. repeat split; discriminate.
      * split; [discriminate|]. intros (_ & _ & H). exfalso. now apply H.
    + destruct (JSON_parse L (trim code)) as [parsed|]; cbn [fst].
      * destruct (wavedrom_renderAny L 0 parsed (wavedrom_waveSkin L)) as [onml|];
          cbn [fst].
        -- destruct (wavedrom_onml_stringify L onml) as [html|]; cbn [fst].
           ++ split; [|reflexivity]. intros _. repeat split; discriminate.
           ++ split; [discriminate|]. intros (_ & _ & H). exfalso. now apply H.
        -- split; [discriminate|]. intros (_ & _ & H). exfalso. now apply H.
      * split; [discriminate|]. intros (_ & _ & H). exfalso. now apply H.
Qed.

(** [renderDiagram] returns [true] exactly when the text is not blank, a
    renderer instance is there if the syntax is the graph one, and no call
    into a library throws. *)
Theorem renderDiagram_succeeds_iff
    (sy : DiagramSyntax) (viz : option Viz) (c : Mount) (code : string) (s : State) :
  fst (renderDiagram L sy viz c code s) = Normal true
  <-> allWhiteSpace code = false
      /\ (sy = graphviz -> viz <> None)
      /\ ~ libraryThrows L sy viz code.
Proof. apply renderDiagram_true_iff. Qed.

Lemma renderDiagram_blank
    (sy : DiagramSyntax) (viz : option Viz) (c : Mount) (code : string) (s : State) :
  allWhiteSpace code = true -> fst (renderDiagram L sy viz c code s) = Normal false.
Proof.
  intros H.
  unfold renderDiagram, renderDiagramBody, bind, setInnerHTML, modify, ret.
  now rewrite isEmpty_trim, H.
Qed.

(** No library is ever handed a blank text: the calls a run of
    [renderDiagram] adds to the history all carry a text with something
    else than white space in it; a blank text leads to no call at all, and
    so does the graph syntax without a renderer instance. *)
Theorem renderDiagram_never_passes_blank_text
    (sy : DiagramSyntax) (viz : option Viz) (c : Mount) (code : string) (s : State) :
  exists new,
    libCalls (snd (renderDiagram L sy viz c code s)) = (libCalls s ++ new)%list
    /\ (forall k x,
           In k new -> libCallArgument k = Some x -> allWhiteSpace x = false)
    /\ (allWhiteSpace code = true -> new = [])
    /\ (sy = graphviz -> viz = None -> new = []).
Proof.
  unfold renderDiagram, renderDiagramBody, tryCatch, bind, call, setInnerHTML,
    appendChild, modify, ret.
  destruct (isEmpty (trim code)) eqn:Hblank.
  - exists []. split; [run_done|]. split; [intros k x []|]. now split.
  - assert (allWhiteSpace code = false) as Hcode by now rewrite <- isEmpty_trim.
    assert (allWhiteSpace (trim code) = false) as Htrim
      by now rewrite allWhiteSpace_trim.
    assert (allWhiteSpace (nomnomlCleaned code) = false) as Hclean.
    { unfold nomnomlCleaned at 1. rewrite allWhiteSpace_trim.
      change (isEmpty (nomnomlCleaned code) = false).
      now rewrite isEmpty_nomnomlCleaned. }
    destruct sy.
    + destruct viz as [v|].
      * exists [CallRenderSVGElement code]. split; [|split; [|split]].
        -- destruct (v code); run_done.
        -- intros k x [<-|[]] Hx. inversion Hx; subst. exact Hcode.
        -- intros Hb. congruence.
        -- intros _ Hv. discriminate.
      * exists []. split; [run_done|]. split; [intros k x []|]. now split.
    + exists [CallNomnomlRenderSvg (nomnomlCleaned code)]. split; [|split; [|split]].
      * destruct (nomnoml_renderSvg L (nomnomlCleaned code)); run_done.
      * intros k x [<-|[]] Hx. inversion Hx; subst. exact Hclean.
      * intros Hb. congruence.
      * intros Hs. discriminate.
    + destruct (JSON_parse L (trim code)) as [parsed|].
      * destruct (wavedrom_renderAny L 0 parsed (wavedrom_waveSkin L)) as [onml|].
        -- exists [CallJSONParse (trim code); CallWavedromRenderAny; CallOnmlStringify].
           split; [|split; [|split]].
           ++ destruct (wavedrom_onml_stringify L onml); run_done.
           ++ intros k x [<-|[<-|[<-|[]]]] Hx; inversion Hx; subst. exact Htrim.
           ++ intros Hb. congruence.
           ++ intros Hs. discriminate.
        -- exists [CallJSONParse (trim code); CallWavedromRenderAny].
           split; [|split; [|split]].
           ++ run_done.
           ++ intros k x [<-|[<-|[]]] Hx; inversion Hx; subst. exact Htrim.
           ++ intros Hb. congruence.
           ++ intros Hs. discriminate.
      * exists [CallJSONParse (trim code)]. split; [|split; [|split]].
        -- run_done.
        -- intros k x [<-|[]] Hx. inversion Hx; subst. exact Htrim.
        -- intros Hb. congruence.
        -- intros Hs. discriminate.
Qed.

(** A graph render that succeeds leaves exactly the element the renderer
    returned in the container. *)
Lemma renderDiagram_graphviz_success
    (v : Viz) (c : Mount) (code : string) (s : State) (svg : SVGSVGElement) :
  fst (renderDiagram L graphviz (Some v) c code s) = Normal true ->
  v code = Normal svg ->
  contentOf c (snd (renderDiagram L graphviz (Some v) c code s)) = [svgNode svg].
Proof.
  unfold renderDiagram, renderDiagramBody, tryCatch, bind, call, setInnerHTML,
    appendChild, modify, ret.
  destruct (isEmpty (trim code)); cbn [fst]; [discriminate|].
  intros _ Hv. rewrite Hv. run_done.
Qed.

End DispatcherMore.

(* ================================================================== *)
(** ** Further properties of the cleaning and of the packaging *)

Section PackagingMore.

(** The text handed to the UML renderer has no line ending in white space
    and neither starts nor ends with white space; cleaning leaves exactly
    such texts alone; and it gives the empty string exactly for the blank
    texts. *)
Theorem nomnomlCleaned_result (a : string) :
  tidy (nomnomlCleaned a)
  /\ trim (nomnomlCleaned a) = nomnomlCleaned a
  /\ (nomnomlCleaned a = a <-> tidy a /\ trim a = a)
  /\ (nomnomlCleaned a = EmptyString <-> allWhiteSpace a = true).
Proof.
  assert (tidy (nomnomlCleaned a)) as Ht.
  { unfold nomnomlCleaned, trim.
    apply tidy_trimEnd, tidy_trimStart, tidy_join_trimEnd. }
  assert (trim (nomnomlCleaned a) = nomnomlCleaned a) as Hf.
  { unfold nomnomlCleaned. apply trim_idempotent. }
  split; [exact Ht|split; [exact Hf|split]].
  - split.
    + intros E. rewrite <- E. now split.
    + intros (Hta & Hfa). unfold nomnomlCleaned. now rewrite (tidy_fixed _ Hta).
  - rewrite <- isEmpty_trim, <- isEmpty_nomnomlCleaned.
    destruct (nomnomlCleaned a); simpl; split; congruence.
Qed.

Lemma firstByTag_tag (tag : string) :
  forall n m, firstByTag tag n = Some m -> exists attrs ch, m = Element tag attrs ch.
Proof.
  fix IH 1. intros [t attrs ch|d] m; simpl; [|discriminate].
  destruct (String.eqb t tag) eqn:E.
  - intros H. inversion H; subst. apply String.eqb_eq in E. subst t.
    now exists attrs, ch.
  - induction ch as [|x ch IHch]; [discriminate|].
    destruct (firstByTag tag x) as [y|] eqn:F.
    + intros H. inversion H; subst. exact (IH x m F).
    + exact IHch.
Qed.

Lemma querySelector_head (tag : string) (attrs : list (string * string))
    (ch rest : list node) :
  querySelector tag (Element tag attrs ch :: rest) = Some (Element tag attrs ch).
Proof. simpl. now rewrite String.eqb_refl. Qed.

(** What [querySelector] finds is an element with the tag asked for, so
    the packaging never works on a text node; and an [svg] element at the
    head of the content is the one found. *)
Theorem querySelector_finds_element (tag : string) (content : list node) :
  (forall m, querySelector tag content = Some m ->
             exists attrs ch, m = Element tag attrs ch)
  /\ (forall attrs ch rest,
         content = Element tag attrs ch :: rest ->
         querySelector tag content = Some (Element tag attrs ch)).
Proof.
  split.
  - induction content as [|x content IH]; simpl; [discriminate|].
    intros m. destruct (firstByTag tag x) as [y|] eqn:F.
    + intros H. inversion H; subst. exact (firstByTag_tag tag x m F).
    + apply IH.
  - intros attrs ch rest ->. simpl. now rewrite String.eqb_refl.
Qed.

(** Packaging keeps the tag, puts the background rectangle before the
    children, which stay as they were, changes no attribute other than
    [viewBox], [width] and [height], and does not add a [viewBox] to an
    element that has none. *)
Theorem packageSvg_keeps_the_rest (t : string) (attrs : list (string * string))
    (ch : list node) :
  exists attrs',
    packageSvg (Element t attrs ch) = Element t attrs' (backgroundRect :: ch)
    /\ (forall name,
           name <> "viewBox" -> name <> "width" -> name <> "height" ->
           lookupAttr name attrs' = lookupAttr name attrs)
    /\ (lookupAttr "viewBox" attrs = None -> lookupAttr "viewBox" attrs' = None).
Proof.
  rewrite packageSvg_unfold. cbv zeta. eexists. split; [reflexivity|split].
  - intros name Hv Hw Hh. rewrite !lookupAttr_update_other by assumption.
    destruct (lookupAttr "viewBox" attrs) as [[|a vb]|]; try reflexivity.
    now rewrite lookupAttr_update_other.
  - intros H. rewrite !lookupAttr_update_other by discriminate.
    now rewrite H.
Qed.

Lemma packaged_viewBox_general (t : string) (attrs : list (string * string))
    (ch : list node) (a : ascii) (vb : string) :
  lookupAttr "viewBox" attrs = Some (String a vb) ->
  getAttribute (packageSvg (Element t attrs ch)) "viewBox"
  = let parts := map parseFloat (splitRuns isSpaceOrComma false (String a vb)) in
    let width := parseFloat (orElse (lookupAttr "width" attrs) "400") in
    let height := parseFloat (orElse (lookupAttr "height" attrs) "300") in
    Some (numberToString (nullish (nth_error parts 0) 0 - padding)%float ++ " " ++
          numberToString (nullish (nth_error parts 1) 0 - padding)%float ++ " " ++
          numberToString (nullish (nth_error parts 2) width + padding * 2)%float
          ++ " " ++
          numberToString (nullish (nth_error parts 3) height + padding * 2)%float).
Proof.
  intros Hvb. rewrite packageSvg_unfold. cbv zeta. unfold getAttribute.
  rewrite !lookupAttr_update_other by discriminate.
  rewrite Hvb. apply lookupAttr_update_same.
Qed.

(** A viewport rectangle with fewer than four fields is completed: a
    missing [y] is 0, a missing width or height is the width or height
    read from the element (400 and 300 when not declared). *)
Theorem packaged_viewBox_missing_fields (t : string) (attrs : list (string * string))
    (ch : list node) (vb : string) :
  getAttribute (Element t attrs ch) "viewBox" = Some vb ->
  vb <> EmptyString ->
  (forall x,
      map parseFloat (splitRuns isSpaceOrComma false vb) = [x] ->
      getAttribute (packageSvg (Element t attrs ch)) "viewBox"
      = Some (numberToString (x - 20)%float ++ " -20 "
              ++ numberToString
                   (parseFloat (orElse (lookupAttr "width" attrs) "400") + 40)%float
              ++ " "
              ++ numberToString
                   (parseFloat (orElse (lookupAttr "height" attrs) "300") + 40)%float))
  /\ (forall x y,
         map parseFloat (splitRuns isSpaceOrComma false vb) = [x; y] ->
         getAttribute (packageSvg (Element t attrs ch)) "viewBox"
         = Some (numberToString (x - 20)%float ++ " "
                 ++ numberToString (y - 20)%float ++ " "
                 ++ numberToString
                      (parseFloat (orElse (lookupAttr "width" attrs) "400") + 40)%float
                 ++ " "
                 ++ numberToString
                      (parseFloat (orElse (lookupAttr "height" attrs) "300") + 40)%float))
  /\ (forall x y w,
         map parseFloat (splitRuns isSpaceOrComma false vb) = [x; y; w] ->
         getAttribute (packageSvg (Element t attrs ch)) "viewBox"
         = Some (numberToString (x - 20)%float ++ " "
                 ++ numberToString (y - 20)%float ++ " "
                 ++ numberToString (w + 40)%float ++ " "
                 ++ numberToString
                      (parseFloat (orElse (lookupAttr "height" attrs) "300") + 40)%float)).
Proof.
  intros Hvb Hne. simpl in Hvb.
  destruct vb as [|a vb]; [congruence|].
  assert (numberToString (0 - padding)%float = "-20") as Hz by (vm_compute; reflexivity).
  rewrite (packaged_viewBox_general t attrs ch a vb Hvb). cbv zeta.
  split; [|split].
  - intros x Hparts. rewrite Hparts. cbn [nth_error nullish]. rewrite Hz. reflexivity.
  - intros x y Hparts. rewrite Hparts. reflexivity.
  - intros x y w Hparts. rewrite Hparts. reflexivity.
Qed.

Lemma splitRuns_in_run (seps core : string) :
  allSeparators seps = true ->
  splitRuns isSpaceOrComma true (seps ++ core) = splitRuns isSpaceOrComma true core.
Proof.
  induction seps as [|a seps IH]; simpl.
  - reflexivity.
  - intros H. apply andb_true_iff in H. destruct H as [Ha Hs].
    rewrite Ha. now apply IH.
Qed.

Lemma splitRuns_leading (seps core : string) :
  seps <> EmptyString ->
  allSeparators seps = true ->
  startsWithField core ->
  splitRuns isSpaceOrComma false (seps ++ core)
  = EmptyString :: splitRuns isSpaceOrComma false core.
Proof.
  destruct seps as [|a seps]; [congruence|]. simpl.
  intros _ H Hcore. apply andb_true_iff in H. destruct H as [Ha Hs].
  rewrite Ha, (splitRuns_in_run seps core Hs). f_equal.
  destruct core as [|c core]; simpl in *.
  - reflexivity.
  - now rewrite Hcore.
Qed.

(** A viewport rectangle written after white space or commas is misread:
    the empty field before the separators is read as NaN and every number
    lands one place later.  With [x y w] the first three numbers that
    follow, the packaged rectangle is [NaN], then [x-20] in the place of
    [y], [y+40] in the place of the width and [w+40] in the place of the
    height; a fourth number is not used. *)
Theorem packaged_viewBox_leading_separator (t : string)
    (attrs : list (string * string)) (ch : list node)
    (seps core : string) (x y w : float) (rest : list float) :
  getAttribute (Element t attrs ch) "viewBox" = Some (seps ++ core) ->
  seps <> EmptyString ->
  allSeparators seps = true ->
  startsWithField core ->
  map parseFloat (splitRuns isSpaceOrComma false core) = x :: y :: w :: rest ->
  getAttribute (packageSvg (Element t attrs ch)) "viewBox"
  = Some ("NaN " ++ numberToString (x - 20)%float ++ " "
          ++ numberToString (y + 40)%float ++ " "
          ++ numberToString (w + 40)%float).
Proof.
  intros Hvb Hne Hseps Hcore Hparts. simpl in Hvb.
  destruct (seps ++ core) as [|a vb] eqn:E.
  { destruct seps; [congruence|discriminate]. }
  rewrite (packaged_viewBox_general t attrs ch a vb Hvb). cbv zeta.
  rewrite <- E, (splitRuns_leading seps core Hne Hseps Hcore).
  cbn [map]. rewrite Hparts. cbn [nth_error nullish].
  replace (numberToString (parseFloat EmptyString - padding)%float) with "NaN"
    by (vm_compute; reflexivity).
  reflexivity.
Qed.

End PackagingMore.

(* ================================================================== *)
(** ** Further properties of the component *)

Section ComponentMore.

Variable L : Libs.

(** The entry point used is the first supported one of the list: the one
    at a point when it is supported, the one at the cursor when only that
    one is, none when neither is; and it is always a supported one. *)
Theorem addElement_prefers_point (s : State) :
  (isSupported s addElementAtPoint = true -> addElement s = Some addElementAtPoint)
  /\ (isSupported s addElementAtPoint = false ->
      isSupported s addElementAtCursor = true ->
      addElement s = Some addElementAtCursor)
  /\ (addElement s = None <-> forall fn, isSupported s fn = false)
  /\ (forall fn, addElement s = Some fn -> isSupported s fn = true).
Proof.
  unfold addElement. simpl.
  destruct (isSupported s addElementAtPoint) eqn:Hp;
    destruct (isSupported s addElementAtCursor) eqn:Hc;
    repeat split; try congruence; try discriminate.
  all: try (intros H; specialize (H addElementAtPoint); congruence).
  all: try (intros H; specialize (H addElementAtCursor); congruence).
  all: try (intros fn H; inversion H; subst; assumption).
  intros _ fn. destruct fn; assumption.
Qed.

(** The button has no tooltip exactly when an entry point is usable and
    the diagram is valid; with a tooltip it is disabled; disabled without
    a tooltip it is busy; and without a usable entry point it is disabled
    and the tooltip says so, whatever the text is. *)
Theorem tooltip_explains_disabled (s : State) :
  (tooltipLabel s = None <-> addElement s <> None /\ hasValidDiagram s = true)
  /\ (tooltipLabel s <> None -> buttonDisabled s = true)
  /\ (buttonDisabled s = true -> tooltipLabel s = None ->
      isLoading s = true /\ buttonLoading s = true)
  /\ (addElement s = None ->
      buttonDisabled s = true /\ tooltipLabel s = Some msgUnsupported).
Proof.
  unfold tooltipLabel, buttonDisabled, buttonLoading.
  destruct (addElement s) as [fn|]; destruct (hasValidDiagram s);
    destruct (isLoading s); simpl; repeat split;
    try congruence; try discriminate; intros; try tauto.
  all: try (destruct H; congruence).
Qed.

(** The preview effect, with the message it leaves. *)
Lemma previewEffect_result (s : State) (c : Mount) :
  previewRef s = Some c ->
  exists b content cs,
    (forall c' s',
        fst (renderDiagram L (syntax s) (vizInstance s) c' (codeInput s) s') = Normal b)
    /\ (allWhiteSpace (codeInput s) = true -> b = false)
    /\ snd (previewEffect L s)
       = setError (if b then None
                   else if allWhiteSpace (codeInput s) then error s
                        else Some msgInvalidSyntax)
           (setHasValidDiagram b
              (logRender (attempt c (syntax s) (codeInput s) b)
                 (appendLibCalls cs (setContent c content s)))).
Proof.
  intros Hc.
  destruct (renderDiagram_shape L (syntax s) (vizInstance s) (codeInput s))
    as (b & content & cs & _ & H).
  exists b, content, cs. split; [|split].
  - intros c' s'. now rewrite H.
  - intros Hblank.
    pose proof (renderDiagram_blank L (syntax s) (vizInstance s) c (codeInput s) s
                  Hblank) as Hf.
    rewrite H in Hf. simpl in Hf. congruence.
  - unfold previewEffect, bind, get. rewrite Hc.
    unfold tryCatch, bind. rewrite H. unfold modify, ret.
    rewrite isEmpty_trim.
    destruct b; [reflexivity|].
    destruct (allWhiteSpace (codeInput s)); [|reflexivity].
    destruct s; reflexivity.
Qed.

Lemma previewEffect_frame (s : State) :
  previewRef s = Some PreviewDiv ->
  hostCalls (snd (previewEffect L s)) = hostCalls s
  /\ pending (snd (previewEffect L s)) = pending s
  /\ isLoading (snd (previewEffect L s)) = isLoading s
  /\ exportDiv (snd (previewEffect L s)) = exportDiv s
  /\ syntax (snd (previewEffect L s)) = syntax s
  /\ codeInput (snd (previewEffect L s)) = codeInput s.
Proof.
  intros Hp.
  destruct (previewEffect_result s PreviewDiv Hp) as (b & content & cs & _ & _ & ->).
  fields. repeat split.
Qed.

Lemma commit_frame (prev next : State) :
  previewRef next = Some PreviewDiv ->
  hostCalls (commit L prev next) = hostCalls next
  /\ pending (commit L prev next) = pending next
  /\ isLoading (commit L prev next) = isLoading next
  /\ exportDiv (commit L prev next) = exportDiv next
  /\ syntax (commit L prev next) = syntax next
  /\ codeInput (commit L prev next) = codeInput next.
Proof.
  intros Hp. unfold commit.
  destruct (String.eqb (codeInput prev) (codeInput next)
            && DiagramSyntax_eqb (syntax prev) (syntax next)).
  - repeat split.
  - now apply previewEffect_frame.
Qed.

Lemma editor_step_frame (s s' : State) (e : Event) :
  previewRef s = Some PreviewDiv ->
  isEditorEvent e = true ->
  step L s e = Some s' ->
  hostCalls s' = hostCalls s /\ pending s' = pending s
  /\ isLoading s' = isLoading s /\ exportDiv s' = exportDiv s.
Proof.
  intros Hp He Hstep.
  destruct e as [value|newSyntax|viz|supported| |result|result];
    try discriminate; cbn [step] in Hstep.
  - assert (s' = commit L s (setCodeInput value s)) as -> by congruence.
    destruct (commit_frame s (setCodeInput value s) Hp) as (H1 & H2 & H3 & H4 & _).
    rewrite H1, H2, H3, H4. repeat split.
  - assert (s' = commit L s (snd (handleSyntaxChange newSyntax s))) as ->
      by congruence.
    destruct (commit_frame s (snd (handleSyntaxChange newSyntax s)) Hp)
      as (H1 & H2 & H3 & H4 & _).
    rewrite H1, H2, H3, H4. repeat split.
  - destruct (vizInstance s); [discriminate|].
    assert (s' = snd (previewEffect L (setVizInstance (Some viz) s))) as ->
      by congruence.
    destruct (previewEffect_frame (setVizInstance (Some viz) s) Hp)
      as (H1 & H2 & H3 & H4 & _).
    rewrite H1, H2, H3, H4. repeat split.
  - assert (s' = setIsSupported supported s) as -> by congruence.
    repeat split.
Qed.

(** Editing never reaches the host: a keystroke, a change of syntax, the
    renderer becoming ready or a change of what the host supports makes no
    host call, neither starts nor ends an insertion, and leaves the export
    container alone. *)
Theorem editing_leaves_insertion_alone
    (supported : Feature -> bool) (events : list Event) (s s' : State) (e : Event) :
  run L (mounted L supported) events = Some s ->
  isEditorEvent e = true ->
  step L s e = Some s' ->
  hostCalls s' = hostCalls s /\ pending s' = pending s
  /\ isLoading s' = isLoading s /\ exportDiv s' = exportDiv s.
Proof.
  intros Hrun He Hstep.
  destruct (Invariant_run L events _ s (Invariant_mounted L supported) Hrun)
    as (Hp & _).
  exact (editor_step_frame s s' e Hp He Hstep).
Qed.

(** After a keystroke that changes the text: the message is cleared when
    the new text renders, it is [Invalid syntax] when a text that is not
    blank fails to render, and a blank text fails and leaves the message
    that was there. *)
Theorem keystroke_message
    (supported : Feature -> bool) (events : list Event) (s s' : State) (value : string) :
  run L (mounted L supported) events = Some s ->
  value <> codeInput s ->
  step L s (Keystroke value) = Some s' ->
  codeInput s' = value
  /\ (hasValidDiagram s' = true -> error s' = None)
  /\ (hasValidDiagram s' = false -> allWhiteSpace value = false ->
      error s' = Some msgInvalidSyntax)
  /\ (allWhiteSpace value = true ->
      hasValidDiagram s' = false /\ error s' = error s).
Proof.
  intros Hrun Hne Hstep.
  destruct (Invariant_run L events _ s (Invariant_mounted L supported) Hrun)
    as (Hp & _).
  cbn [step] in Hstep.
  assert (s' = commit L s (setCodeInput value s)) as -> by congruence.
  clear Hstep. unfold commit. cbn [codeInput setCodeInput].
  destruct (String.eqb (codeInput s) value) eqn:E.
  { apply String.eqb_eq in E. congruence. }
  cbn [andb].
  destruct (previewEffect_result (setCodeInput value s) PreviewDiv Hp)
    as (b & content & cs & _ & Hblank & ->).
  fields. cbn [codeInput setCodeInput] in Hblank.
  split; [reflexivity|split; [|split]].
  - intros ->. reflexivity.
  - intros -> Hv. now rewrite Hv.
  - intros Hv. rewrite (Hblank Hv), Hv. now split.
Qed.

Lemma defaultCode_not_blank (sy : DiagramSyntax) :
  allWhiteSpace (defaultCode sy) = false.
Proof. destruct sy; vm_compute; reflexivity. Qed.

(** After the syntax is chosen, it is the chosen one and the text is its
    default text; no message is left but [Invalid syntax], which is there
    only with an invalid diagram; nothing of an insertion changes. *)
Theorem syntax_change_loads_default
    (supported : Feature -> bool) (events : list Event) (s s' : State)
    (newSyntax : DiagramSyntax) :
  run L (mounted L supported) events = Some s ->
  step L s (SelectSyntax newSyntax) = Some s' ->
  syntax s' = newSyntax
  /\ codeInput s' = defaultCode newSyntax
  /\ (error s' = None
      \/ (error s' = Some msgInvalidSyntax /\ hasValidDiagram s' = false))
  /\ hostCalls s' = hostCalls s /\ pending s' = pending s
  /\ isLoading s' = isLoading s.
Proof.
  intros Hrun Hstep.
  destruct (Invariant_run L events _ s (Invariant_mounted L supported) Hrun)
    as (Hp & _).
  destruct (editor_step_frame s s' (SelectSyntax newSyntax) Hp eq_refl Hstep)
    as (H1 & H2 & H3 & _).
  cbn [step] in Hstep.
  assert (s' = commit L s (snd (handleSyntaxChange newSyntax s))) as ->
    by congruence.
  clear Hstep.
  destruct (commit_frame s (snd (handleSyntaxChange newSyntax s)) Hp)
    as (_ & _ & _ & _ & Hsy & Hcode).
  split; [exact Hsy|split; [exact Hcode|split; [|now repeat split]]].
  unfold commit.
  destruct (String.eqb (codeInput s) (codeInput (snd (handleSyntaxChange newSyntax s)))
            && DiagramSyntax_eqb (syntax s)
                 (syntax (snd (handleSyntaxChange newSyntax s)))).
  - left. reflexivity.
  - destruct (previewEffect_result (snd (handleSyntaxChange newSyntax s)) PreviewDiv Hp)
      as (b & content & cs & _ & _ & ->).
    fields.
    change (codeInput (snd (handleSyntaxChange newSyntax s)))
      with (defaultCode newSyntax).
    rewrite defaultCode_not_blank.
    destruct b; [now left|right; now split].
Qed.

(** When the component is mounted the renderer is not there yet: the
    default graph text fails to render without any call, the message
    [Invalid syntax] is displayed and the button is disabled. *)
Theorem mounted_shows_invalid_syntax (supported : Feature -> bool) :
  hasValidDiagram (mounted L supported) = false
  /\ error (mounted L supported) = Some msgInvalidSyntax
  /\ buttonDisabled (mounted L supported) = true
  /\ vizInstance (mounted L supported) = None
  /\ libCalls (mounted L supported) = []
  /\ hostCalls (mounted L supported) = []
  /\ previewDiv (mounted L supported) = []
  /\ renders (mounted L supported)
     = [attempt PreviewDiv graphviz (defaultCode graphviz) false].
Proof.
  assert (mounted L supported
          = setError (Some msgInvalidSyntax)
              (setHasValidDiagram false
                 (logRender (attempt PreviewDiv graphviz (defaultCode graphviz) false)
                    (setContent PreviewDiv []
                       (attachRefs (initialState supported))))))
    as E by (vm_compute; reflexivity).
  rewrite E. unfold buttonDisabled. fields. rewrite orb_true_r.
  repeat split.
Qed.

End ComponentMore.

Section InsertionMore.

Variable L : Libs.

Lemma knownMessage_failed : knownMessage (Some msgFailedToAdd).
Proof. right. right. reflexivity. Qed.

Lemma failed_is_not_invalid : Some msgFailedToAdd <> Some msgInvalidSyntax.
Proof. discriminate. Qed.

Lemma ErrorInvariant_effect (s : State) :
  previewRef s = Some PreviewDiv ->
  knownMessage (error s) ->
  ErrorInvariant (snd (previewEffect L s)).
Proof.
  intros Hp Hk.
  destruct (previewEffect_result L s PreviewDiv Hp) as (b & content & cs & _ & _ & ->).
  unfold ErrorInvariant. fields.
  destruct b; [|destruct (allWhiteSpace (codeInput s))].
  - split; [now left|discriminate].
  - split; [exact Hk|reflexivity].
  - split; [right; now left|reflexivity].
Qed.

Lemma ErrorInvariant_commit (prev next : State) :
  previewRef next = Some PreviewDiv ->
  ErrorInvariant next ->
  ErrorInvariant (commit L prev next).
Proof.
  intros Hp Hn. unfold commit.
  destruct (String.eqb (codeInput prev) (codeInput next)
            && DiagramSyntax_eqb (syntax prev) (syntax next)).
  - exact Hn.
  - apply ErrorInvariant_effect; [exact Hp|exact (proj1 Hn)].
Qed.

Lemma ErrorInvariant_step (s s' : State) (e : Event) :
  Invariant L s -> ErrorInvariant s -> step L s e = Some s' -> ErrorInvariant s'.
Proof.
  intros (Hp & He & _) (Hk & Hi) Hstep.
  destruct e as [value|newSyntax|viz|supported| |result|result];
    cbn [step] in Hstep.
  - assert (s' = commit L s (setCodeInput value s)) as -> by congruence.
    apply ErrorInvariant_commit; [exact Hp|]. now split.
  - assert (s' = commit L s (snd (handleSyntaxChange newSyntax s))) as ->
      by congruence.
    apply ErrorInvariant_commit; [exact Hp|].
    split; [now left|discriminate].
  - destruct (vizInstance s); [discriminate|].
    assert (s' = snd (previewEffect L (setVizInstance (Some viz) s))) as ->
      by congruence.
    now apply ErrorInvariant_effect.
  - assert (s' = setIsSupported supported s) as -> by congruence. now split.
  - destruct (buttonDisabled s); [discriminate|].
    assert (s' = handleAddToDesign L s) as -> by congruence.
    destruct (addElement s) as [fn|] eqn:Hfn.
    + destruct (handleAddToDesign_shape L s fn ExportDiv Hfn He)
        as (b & content & cs & _ & _ & ->).
      cbv zeta.
      destruct (if b then querySelector "svg" content else None);
        unfold ErrorInvariant; fields.
      * split; [now left|discriminate].
      * split; [apply knownMessage_failed|].
        intros H. now apply failed_is_not_invalid in H.
    + unfold handleAddToDesign. rewrite Hfn. now split.
  - destruct (pending s) as [|fn|]; try discriminate.
    assert (s' = resumeAfterUpload fn result s) as -> by congruence.
    destruct result as [ref|]; unfold ErrorInvariant; fields.
    + now split.
    + split; [apply knownMessage_failed|].
      intros H. now apply failed_is_not_invalid in H.
  - destruct (pending s) as [|fn|]; try discriminate.
    assert (s' = resumeAfterAddElement result s) as -> by congruence.
    destruct result as [x|]; unfold ErrorInvariant; fields.
    + now split.
    + split; [apply knownMessage_failed|].
      intros H. now apply failed_is_not_invalid in H.
Qed.

Lemma ErrorInvariant_run (events : list Event) (s s' : State) :
  Invariant L s -> ErrorInvariant s -> run L s events = Some s' -> ErrorInvariant s'.
Proof.
  revert s. induction events as [|e events IH]; simpl; intros s Hs He Hrun.
  - now inversion Hrun; subst.
  - destruct (step L s e) as [s1|] eqn:E; [|discriminate].
    apply (IH s1); [| |assumption].
    + now apply (Invariant_step L s s1 e).
    + now apply (ErrorInvariant_step s s1 e).
Qed.

(** The component displays no message, [Invalid syntax] or [Failed to add
    diagram to design], and nothing else; [Invalid syntax] is never
    displayed beside a valid diagram, so that with the button enabled the
    message, if any, is the one of a failed insertion. *)
Theorem messages_of_the_component
    (supported : Feature -> bool) (events : list Event) (s : State) :
  run L (mounted L supported) events = Some s ->
  knownMessage (error s)
  /\ (error s = Some msgInvalidSyntax -> hasValidDiagram s = false)
  /\ (buttonDisabled s = false ->
      error s = None \/ error s = Some msgFailedToAdd).
Proof.
  intros Hrun.
  assert (ErrorInvariant (mounted L supported)) as H0.
  { unfold mounted. apply ErrorInvariant_effect; [reflexivity|now left]. }
  destruct (ErrorInvariant_run events _ s (Invariant_mounted L supported) H0 Hrun)
    as (Hk & Hi).
  split; [exact Hk|split; [exact Hi|]].
  intros Hd. destruct (buttonDisabled_false s Hd) as (_ & _ & Hv).
  destruct Hk as [Hk|[Hk|Hk]]; [now left| |now right].
  specialize (Hi Hk). congruence.
Qed.

(** While an insertion is in progress the button cannot be clicked: a
    second run of [handleAddToDesign] never starts before the first has
    ended. *)
Theorem one_insertion_at_a_time
    (supported : Feature -> bool) (events : list Event) (s : State) :
  run L (mounted L supported) events = Some s ->
  pending s <> NoPending ->
  buttonDisabled s = true /\ step L s ClickAddToDesign = None.
Proof.
  intros Hrun Hp.
  destruct (Invariant_run L events _ s (Invariant_mounted L supported) Hrun)
    as (_ & _ & _ & _ & Hl).
  assert (buttonDisabled s = true) as Hd.
  { unfold buttonDisabled. rewrite (proj2 Hl Hp).
    destruct (addElement s); reflexivity. }
  split; [exact Hd|]. cbn [step]. now rewrite Hd.
Qed.

Lemma countUploads_snoc (h : list HostCall) (c : HostCall) :
  countUploads (h ++ [c]) = countUploads h + (if isUpload c then 1 else 0).
Proof.
  unfold countUploads. rewrite filter_app, length_app. simpl.
  now destruct (isUpload c).
Qed.

Lemma countAddElements_snoc (h : list HostCall) (c : HostCall) :
  countAddElements (h ++ [c])
  = countAddElements h + (if isAddElement c then 1 else 0).
Proof.
  unfold countAddElements. rewrite filter_app, length_app. simpl.
  now destruct (isAddElement c).
Qed.

Lemma prefixes_snoc (h : list HostCall) (c : HostCall) :
  (forall n, countAddElements (firstn n h) <= countUploads (firstn n h)) ->
  countAddElements (h ++ [c]) <= countUploads (h ++ [c]) ->
  forall n,
    countAddElements (firstn n (h ++ [c])) <= countUploads (firstn n (h ++ [c])).
Proof.
  intros Hh Hc n.
  destruct (Nat.le_gt_cases n (List.length h)) as [Hn|Hn].
  - rewrite firstn_app. replace (n - List.length h) with 0 by lia.
    simpl. rewrite app_nil_r. apply Hh.
  - rewrite firstn_all2 by (rewrite length_app; simpl; lia). exact Hc.
Qed.

Lemma HostOrder_step (s s' : State) (e : Event) :
  Invariant L s -> HostOrder s -> step L s e = Some s' -> HostOrder s'.
Proof.
  intros (Hp & He & _) (Hpre & Hup) Hstep.
  assert (countAddElements (hostCalls s) <= countUploads (hostCalls s)) as Hall.
  { specialize (Hpre (List.length (hostCalls s))). now rewrite firstn_all in Hpre. }
  destruct (isEditorEvent e) eqn:Hed.
  - destruct (editor_step_frame L s s' e Hp Hed Hstep) as (H1 & H2 & _).
    unfold HostOrder. now rewrite H1, H2.
  - destruct e as [value|newSyntax|viz|supported| |result|result];
      try discriminate; cbn [step] in Hstep.
    + destruct (buttonDisabled s); [discriminate|].
      assert (s' = handleAddToDesign L s) as -> by congruence.
      destruct (addElement s) as [fn|] eqn:Hfn.
      * destruct (handleAddToDesign_shape L s fn ExportDiv Hfn He)
          as (b & content & cs & _ & _ & ->).
        cbv zeta.
        destruct (if b then querySelector "svg" content else None);
          unfold HostOrder; fields.
        -- assert (countAddElements
                     (hostCalls s ++ [CallUpload (uploadRequest (dataUrlOf L n))])
                   < countUploads
                       (hostCalls s ++ [CallUpload (uploadRequest (dataUrlOf L n))]))
             as Hlt.
           { rewrite countUploads_snoc, countAddElements_snoc. simpl. lia. }
           split.
           ++ apply prefixes_snoc; [exact Hpre|lia].
           ++ intros _ _. exact Hlt.
        -- split; [exact Hpre|discriminate].
      * unfold handleAddToDesign. rewrite Hfn. now split.
    + destruct (pending s) as [|fn|] eqn:Hpd; try discriminate.
      assert (s' = resumeAfterUpload fn result s) as -> by congruence.
      specialize (Hup fn eq_refl).
      destruct result as [ref|]; unfold HostOrder; fields.
      * split; [|discriminate].
        apply prefixes_snoc; [exact Hpre|].
        rewrite countUploads_snoc, countAddElements_snoc. simpl. lia.
      * split; [exact Hpre|discriminate].
    + destruct (pending s) as [|fn|] eqn:Hpd; try discriminate.
      assert (s' = resumeAfterAddElement result s) as -> by congruence.
      destruct result as [x|]; unfold HostOrder; fields;
        (split; [exact Hpre|discriminate]).
Qed.

Lemma HostOrder_run (events : list Event) (s s' : State) :
  Invariant L s -> HostOrder s -> run L s events = Some s' -> HostOrder s'.
Proof.
  revert s. induction events as [|e events IH]; simpl; intros s Hs Ho Hrun.
  - now inversion Hrun; subst.
  - destruct (step L s e) as [s1|] eqn:E; [|discriminate].
    apply (IH s1); [| |assumption].
    + now apply (Invariant_step L s s1 e).
    + now apply (HostOrder_step s s1 e).
Qed.

(** At every point of the history of host calls there are at least as
    many [upload] calls as [addElement] calls: each insertion call comes
    after an upload of its own; and while an upload is awaited there is
    one upload more. *)
Theorem insertions_follow_uploads
    (supported : Feature -> bool) (events : list Event) (s : State) :
  run L (mounted L supported) events = Some s ->
  (forall n,
      countAddElements (firstn n (hostCalls s))
      <= countUploads (firstn n (hostCalls s)))
  /\ (forall fn,
         pending s = AwaitingUpload fn ->
         countAddElements (hostCalls s) < countUploads (hostCalls s)).
Proof.
  intros Hrun.
  assert (HostOrder (mounted L supported)) as H0.
  { destruct (previewEffect_frame L (attachRefs (initialState supported)) eq_refl)
      as (H1 & H2 & _).
    unfold HostOrder, mounted. rewrite H1, H2. split.
    - intros n. simpl. now rewrite firstn_nil.
    - discriminate. }
  exact (HostOrder_run events _ s (Invariant_mounted L supported) H0 Hrun).
Qed.

(** With the graph syntax, a click on the enabled button always gets to
    the upload: the fresh render succeeds, the element the renderer
    returned is found and packaged, and [upload] is called once with its
    data URL, through the preferred entry point. *)
Theorem graphviz_click_reaches_upload
    (supported : Feature -> bool) (events : list Event) (s : State) :
  run L (mounted L supported) events = Some s ->
  buttonDisabled s = false ->
  syntax s = graphviz ->
  exists fn v svg,
    addElement s = Some fn
    /\ vizInstance s = Some v
    /\ v (codeInput s) = Normal svg
    /\ pending (handleAddToDesign L s) = AwaitingUpload fn
    /\ hostCalls (handleAddToDesign L s)
       = (hostCalls s ++ [CallUpload (uploadRequest (dataUrlOf L (svgNode svg)))])%list.
Proof.
  intros Hrun Hd Hsy.
  destruct (Invariant_run L events _ s (Invariant_mounted L supported) Hrun)
    as (_ & He & _ & Hv & _).
  destruct (buttonDisabled_false s Hd) as (Ha & _ & Hvalid).
  destruct (addElement s) as [fn|] eqn:Hfn; [|congruence].
  rewrite Hvalid, Hsy in Hv.
  pose proof (Hv ExportDiv s) as Hok.
  destruct (proj1 (renderDiagram_true_iff L graphviz (vizInstance s) ExportDiv
                     (codeInput s) s) Hok) as (_ & Hviz & Hthrow).
  destruct (vizInstance s) as [v|] eqn:Ev; [|now exfalso; apply Hviz].
  destruct (v (codeInput s)) as [svg|] eqn:Esvg.
  2:{ exfalso. apply Hthrow. simpl. now exists v. }
  exists fn, v, svg.
  destruct (handleAddToDesign_shape L s fn ExportDiv Hfn He)
    as (b & content & cs & Hb & Hcontent & ->).
  rewrite Hsy, Ev in Hb, Hcontent.
  assert (b = true) as -> by (specialize (Hb ExportDiv s); congruence).
  rewrite (renderDiagram_graphviz_success L v ExportDiv (codeInput s) s svg Hok Esvg)
    in Hcontent.
  subst content. cbv zeta.
  unfold svgNode at 1.
  rewrite (querySelector_head "svg" (svgAttributes svg) (svgChildNodes svg) []).
  fold (svgNode svg).
  fields. repeat split. exact Esvg.
Qed.


(** A run of [handleAddToDesign], however it ends, leaves the editor as
    it was: the syntax, the text, the validity flag, the renderer
    instance, what the host supports, the refs and the preview. *)
Theorem insertion_leaves_editor_alone
    (s : State) (u : completion string) (a : completion unit) :
  exportRef s <> Some PreviewDiv ->
  syntax (addToDesign L u a s) = syntax s
  /\ codeInput (addToDesign L u a s) = codeInput s
  /\ hasValidDiagram (addToDesign L u a s) = hasValidDiagram s
  /\ vizInstance (addToDesign L u a s) = vizInstance s
  /\ isSupported (addToDesign L u a s) = isSupported s
  /\ previewRef (addToDesign L u a s) = previewRef s
  /\ exportRef (addToDesign L u a s) = exportRef s
  /\ previewDiv (addToDesign L u a s) = previewDiv s.
Proof.
  intros Hne.
  assert (forall t : State,
             syntax t = syntax s /\ codeInput t = codeInput s
             /\ hasValidDiagram t = hasValidDiagram s
             /\ vizInstance t = vizInstance s /\ isSupported t = isSupported s
             /\ previewRef t = previewRef s /\ exportRef t = exportRef s
             /\ previewDiv t = previewDiv s ->
             let r :=
               match pending t with
               | AwaitingUpload fn =>
                   match pending (resumeAfterUpload fn u t) with
                   | AwaitingAddElement =>
                       resumeAfterAddElement a (resumeAfterUpload fn u t)
                   | _ => resumeAfterUpload fn u t
                   end
               | _ => t
               end in
             syntax r = syntax s /\ codeInput r = codeInput s
             /\ hasValidDiagram r = hasValidDiagram s
             /\ vizInstance r = vizInstance s /\ isSupported r = isSupported s
             /\ previewRef r = previewRef s /\ exportRef r = exportRef s
             /\ previewDiv r = previewDiv s) as Hresume.
  { intros t Ht. cbv zeta.
    destruct (pending t) as [|fn|]; try exact Ht.
    destruct u as [ref|]; [destruct a as [x|]|]; fields; exact Ht. }
  unfold addToDesign. cbv zeta. apply Hresume.
  destruct (addElement s) as [fn|] eqn:Hfn.
  - destruct (exportRef s) as [c|] eqn:Hc.
    + destruct c; [congruence|].
      destruct (handleAddToDesign_shape L s fn ExportDiv Hfn Hc)
        as (b & content & cs & _ & _ & ->).
      cbv zeta.
      destruct (if b then querySelector "svg" content else None); fields;
        rewrite ?Hc; repeat split.
    + unfold handleAddToDesign. rewrite Hfn, Hc. repeat split; assumption.
  - unfold handleAddToDesign. rewrite Hfn. repeat split.
Qed.

End InsertionMore.

(* ================================================================== *)
(** ** The further properties on concrete inputs *)

Lemma addElement_prefers_point_witness :
  isSupported (mounted sampleLibs everythingSupported) addElementAtPoint = true
  /\ addElement (mounted sampleLibs everythingSupported) = Some addElementAtPoint.
Proof.
  assert (isSupported (mounted sampleLibs everythingSupported) addElementAtPoint
          = true) as H by reflexivity.
  split; [exact H|].
  exact (proj1 (addElement_prefers_point (mounted sampleLibs everythingSupported)) H).
Defined.

Lemma tooltip_explains_disabled_witness :
  buttonDisabled (stateAfter sampleLibs onlyAtPoint suspendedEvents) = true
  /\ tooltipLabel (stateAfter sampleLibs onlyAtPoint suspendedEvents) = None
  /\ isLoading (stateAfter sampleLibs onlyAtPoint suspendedEvents) = true.
Proof.
  assert (buttonDisabled (stateAfter sampleLibs onlyAtPoint suspendedEvents) = true)
    as Hd by (vm_compute; reflexivity).
  assert (tooltipLabel (stateAfter sampleLibs onlyAtPoint suspendedEvents) = None)
    as Ht by (vm_compute; reflexivity).
  split; [exact Hd|split; [exact Ht|]].
  destruct (tooltip_explains_disabled
              (stateAfter sampleLibs onlyAtPoint suspendedEvents))
    as (_ & _ & H & _).
  exact (proj1 (H Hd Ht)).
Defined.

Lemma renderDiagram_touches_only_its_container_witness :
  PreviewDiv <> ExportDiv
  /\ contentOf PreviewDiv
       (snd (renderDiagram sampleLibs nomnoml None ExportDiv umlTextA readyState))
     = contentOf PreviewDiv readyState.
Proof.
  assert (PreviewDiv <> ExportDiv) as H by discriminate.
  split; [exact H|].
  destruct (renderDiagram_touches_only_its_container sampleLibs nomnoml None
              ExportDiv umlTextA readyState)
    as (_ & _ & _ & _ & _ & _ & _ & Hc & _).
  exact (Hc PreviewDiv H).
Defined.

Lemma renderDiagram_succeeds_iff_witness :
  allWhiteSpace brokenTiming = false
  /\ fst (renderDiagram sampleLibs wavedrom None PreviewDiv brokenTiming readyState)
     <> Normal true.
Proof.
  split; [reflexivity|].
  intros H.
  destruct (proj1 (renderDiagram_succeeds_iff sampleLibs wavedrom None PreviewDiv
                     brokenTiming readyState) H) as (_ & _ & Hthrow).
  apply Hthrow. vm_compute. exact I.
Defined.

Lemma packaged_viewBox_missing_fields_witness :
  getAttribute shortBoxSvg "viewBox" = Some "5 6"
  /\ getAttribute (packageSvg shortBoxSvg) "viewBox" = Some "-15 -14 240 140".
Proof.
  split; [reflexivity|].
  destruct (packaged_viewBox_missing_fields "svg"
              [("width", "200"); ("height", "100"); ("viewBox", "5 6")] []
              "5 6" eq_refl) as (_ & H & _).
  - discriminate.
  - unfold shortBoxSvg.
    rewrite (H 5%float 6%float) by (vm_compute; reflexivity).
    vm_compute. reflexivity.
Defined.

Lemma packaged_viewBox_leading_separator_witness :
  getAttribute spacedBoxSvg "viewBox" = Some (" " ++ "0 0 100 50")
  /\ allSeparators " " = true
  /\ startsWithField "0 0 100 50"
  /\ getAttribute (packageSvg spacedBoxSvg) "viewBox" = Some "NaN -20 40 140".
Proof.
  split; [reflexivity|split; [reflexivity|split; [reflexivity|]]].
  unfold spacedBoxSvg.
  rewrite (packaged_viewBox_leading_separator "svg" [("viewBox", " 0 0 100 50")] []
             " " "0 0 100 50" 0%float 0%float 100%float [50%float] eq_refl);
    try reflexivity; try discriminate.
Defined.

Lemma renderDiagram_never_passes_blank_text_witness :
  allWhiteSpace blankText = true
  /\ libCalls (snd (renderDiagram sampleLibs nomnoml None PreviewDiv blankText
                      readyState))
     = libCalls readyState
  /\ libCalls (snd (renderDiagram sampleLibs graphviz None PreviewDiv
                      (defaultCode graphviz) readyState))
     = libCalls readyState.
Proof.
  split; [reflexivity|split].
  - destruct (renderDiagram_never_passes_blank_text sampleLibs nomnoml None
                PreviewDiv blankText readyState) as (new & Hcalls & _ & Hblank & _).
    rewrite Hcalls, (Hblank eq_refl). apply app_nil_r.
  - destruct (renderDiagram_never_passes_blank_text sampleLibs graphviz None
                PreviewDiv (defaultCode graphviz) readyState)
      as (new & Hcalls & _ & _ & Hnone).
    rewrite Hcalls, (Hnone eq_refl eq_refl). apply app_nil_r.
Defined.

Lemma editing_leaves_insertion_alone_witness :
  run sampleLibs (mounted sampleLibs onlyAtPoint) suspendedEvents
  = Some (stateAfter sampleLibs onlyAtPoint suspendedEvents)
  /\ step sampleLibs (stateAfter sampleLibs onlyAtPoint suspendedEvents)
       (Keystroke "x")
     = Some (stateAfter sampleLibs onlyAtPoint (suspendedEvents ++ [Keystroke "x"]))
  /\ hostCalls (stateAfter sampleLibs onlyAtPoint (suspendedEvents ++ [Keystroke "x"]))
     = hostCalls (stateAfter sampleLibs onlyAtPoint suspendedEvents).
Proof.
  assert (run sampleLibs (mounted sampleLibs onlyAtPoint) suspendedEvents
          = Some (stateAfter sampleLibs onlyAtPoint suspendedEvents)) as Hrun
    by (vm_compute; reflexivity).
  assert (step sampleLibs (stateAfter sampleLibs onlyAtPoint suspendedEvents)
            (Keystroke "x")
          = Some (stateAfter sampleLibs onlyAtPoint
                    (suspendedEvents ++ [Keystroke "x"]))) as Hstep
    by (vm_compute; reflexivity).
  split; [exact Hrun|split; [exact Hstep|]].
  exact (proj1 (editing_leaves_insertion_alone sampleLibs onlyAtPoint
                  suspendedEvents _ _ (Keystroke "x") Hrun eq_refl Hstep)).
Defined.

Lemma keystroke_message_witness :
  run sampleLibs (mounted sampleLibs onlyAtPoint) [VizReady sampleViz]
  = Some readyState
  /\ "oops" <> codeInput readyState
  /\ step sampleLibs readyState (Keystroke "oops")
     = Some (stateAfter sampleLibs onlyAtPoint [VizReady sampleViz; Keystroke "oops"])
  /\ codeInput (stateAfter sampleLibs onlyAtPoint
                  [VizReady sampleViz; Keystroke "oops"]) = "oops".
Proof.
  assert (run sampleLibs (mounted sampleLibs onlyAtPoint) [VizReady sampleViz]
          = Some readyState) as Hrun by (vm_compute; reflexivity).
  assert ("oops" <> codeInput readyState) as Hne by (vm_compute; discriminate).
  assert (step sampleLibs readyState (Keystroke "oops")
          = Some (stateAfter sampleLibs onlyAtPoint
                    [VizReady sampleViz; Keystroke "oops"])) as Hstep
    by (vm_compute; reflexivity).
  split; [exact Hrun|split; [exact Hne|split; [exact Hstep|]]].
  exact (proj1 (keystroke_message sampleLibs onlyAtPoint [VizReady sampleViz]
                  readyState _ "oops" Hrun Hne Hstep)).
Defined.

Lemma syntax_change_loads_default_witness :
  run sampleLibs (mounted sampleLibs onlyAtPoint) [VizReady sampleViz]
  = Some readyState
  /\ step sampleLibs readyState (SelectSyntax wavedrom)
     = Some (stateAfter sampleLibs onlyAtPoint
               [VizReady sampleViz; SelectSyntax wavedrom])
  /\ syntax (stateAfter sampleLibs onlyAtPoint
               [VizReady sampleViz; SelectSyntax wavedrom]) = wavedrom.
Proof.
  assert (run sampleLibs (mounted sampleLibs onlyAtPoint) [VizReady sampleViz]
          = Some readyState) as Hrun by (vm_compute; reflexivity).
  assert (step sampleLibs readyState (SelectSyntax wavedrom)
          = Some (stateAfter sampleLibs onlyAtPoint
                    [VizReady sampleViz; SelectSyntax wavedrom])) as Hstep
    by (vm_compute; reflexivity).
  split; [exact Hrun|split; [exact Hstep|]].
  exact (proj1 (syntax_change_loads_default sampleLibs onlyAtPoint
                  [VizReady sampleViz] readyState _ wavedrom Hrun Hstep)).
Defined.

Lemma messages_of_the_component_witness :
  run sampleLibs (mounted sampleLibs onlyAtPoint) rejectedUploadEvents
  = Some (stateAfter sampleLibs onlyAtPoint rejectedUploadEvents)
  /\ knownMessage (error (stateAfter sampleLibs onlyAtPoint rejectedUploadEvents)).
Proof.
  assert (run sampleLibs (mounted sampleLibs onlyAtPoint) rejectedUploadEvents
          = Some (stateAfter sampleLibs onlyAtPoint rejectedUploadEvents)) as Hrun
    by (vm_compute; reflexivity).
  split; [exact Hrun|].
  exact (proj1 (messages_of_the_component sampleLibs onlyAtPoint
                  rejectedUploadEvents _ Hrun)).
Defined.

Lemma one_insertion_at_a_time_witness :
  run sampleLibs (mounted sampleLibs onlyAtPoint) suspendedEvents
  = Some (stateAfter sampleLibs onlyAtPoint suspendedEvents)
  /\ pending (stateAfter sampleLibs onlyAtPoint suspendedEvents) <> NoPending
  /\ step sampleLibs (stateAfter sampleLibs onlyAtPoint suspendedEvents)
       ClickAddToDesign = None.
Proof.
  assert (run sampleLibs (mounted sampleLibs onlyAtPoint) suspendedEvents
          = Some (stateAfter sampleLibs onlyAtPoint suspendedEvents)) as Hrun
    by (vm_compute; reflexivity).
  assert (pending (stateAfter sampleLibs onlyAtPoint suspendedEvents) <> NoPending)
    as Hp by (vm_compute; discriminate).
  split; [exact Hrun|split; [exact Hp|]].
  exact (proj2 (one_insertion_at_a_time sampleLibs onlyAtPoint suspendedEvents _
                  Hrun Hp)).
Defined.

Lemma insertions_follow_uploads_witness :
  run sampleLibs (mounted sampleLibs onlyAtPoint) insertionEvents
  = Some (stateAfter sampleLibs onlyAtPoint insertionEvents)
  /\ forall n,
       countAddElements
         (firstn n (hostCalls (stateAfter sampleLibs onlyAtPoint insertionEvents)))
       <= countUploads
            (firstn n (hostCalls (stateAfter sampleLibs onlyAtPoint insertionEvents))).
Proof.
  assert (run sampleLibs (mounted sampleLibs onlyAtPoint) insertionEvents
          = Some (stateAfter sampleLibs onlyAtPoint insertionEvents)) as Hrun
    by (vm_compute; reflexivity).
  split; [exact Hrun|].
  exact (proj1 (insertions_follow_uploads sampleLibs onlyAtPoint insertionEvents _
                  Hrun)).
Defined.

Lemma graphviz_click_reaches_upload_witness :
  run sampleLibs (mounted sampleLibs onlyAtPoint) [VizReady sampleViz]
  = Some readyState
  /\ buttonDisabled readyState = false
  /\ syntax readyState = graphviz
  /\ exists fn v svg,
       addElement readyState = Some fn
       /\ vizInstance readyState = Some v
       /\ v (codeInput readyState) = Normal svg
       /\ pending (handleAddToDesign sampleLibs readyState) = AwaitingUpload fn
       /\ hostCalls (handleAddToDesign sampleLibs readyState)
          = (hostCalls readyState
             ++ [CallUpload (uploadRequest (dataUrlOf sampleLibs (svgNode svg)))])%list.
Proof.
  assert (run sampleLibs (mounted sampleLibs onlyAtPoint) [VizReady sampleViz]
          = Some readyState) as Hrun by (vm_compute; reflexivity).
  assert (buttonDisabled readyState = false) as Hd by (vm_compute; reflexivity).
  assert (syntax readyState = graphviz) as Hsy by (vm_compute; reflexivity).
  split; [exact Hrun|split; [exact Hd|split; [exact Hsy|]]].
  exact (graphviz_click_reaches_upload sampleLibs onlyAtPoint [VizReady sampleViz]
           readyState Hrun Hd Hsy).
Defined.


Lemma insertion_leaves_editor_alone_witness :
  exportRef readyState <> Some PreviewDiv
  /\ codeInput (addToDesign sampleLibs (Normal "ref-1") (Normal tt) readyState)
     = codeInput readyState.
Proof.
  assert (exportRef readyState <> Some PreviewDiv) as H
    by (vm_compute; discriminate).
  split; [exact H|].
  destruct (insertion_leaves_editor_alone sampleLibs readyState (Normal "ref-1")
              (Normal tt) H) as (_ & Hcode & _).
  exact Hcode.
Defined.

Lemma querySelector_finds_element_witness :
  querySelector "svg" [Text "x"; svgNode sampleSvg] = Some (svgNode sampleSvg)
  /\ exists attrs ch, svgNode sampleSvg = Element "svg" attrs ch.
Proof.
  assert (querySelector "svg" [Text "x"; svgNode sampleSvg] = Some (svgNode sampleSvg))
    as H by reflexivity.
  split; [exact H|].
  exact (proj1 (querySelector_finds_element "svg" [Text "x"; svgNode sampleSvg])
           (svgNode sampleSvg) H).
Defined.

Lemma packageSvg_keeps_the_rest_witness :
  lookupAttr "viewBox" [("width", "400"); ("height", "300")] = None
  /\ exists attrs',
       packageSvg plainSvg = Element "svg" attrs' (backgroundRect :: [Element "g" [] []])
       /\ lookupAttr "viewBox" attrs' = None.
Proof.
  split; [reflexivity|].
  destruct (packageSvg_keeps_the_rest "svg" [("width", "400"); ("height", "300")]
              [Element "g" [] []]) as (attrs' & Hp & _ & Hv).
  exists attrs'. split; [exact Hp|]. apply Hv. reflexivity.
Defined.

Section ReadyAndHost.

Variable L : Libs.

Lemma renderDiagram_ignores_instance (sy : DiagramSyntax) (viz viz' : option Viz)
    (c : Mount) (code : string) (s : State) :
  sy <> graphviz ->
  renderDiagram L sy viz c code s = renderDiagram L sy viz' c code s.
Proof. destruct sy; [congruence|reflexivity|reflexivity]. Qed.

(** When the renderer becomes ready the preview is rendered again: with
    the graph syntax the diagram is then valid exactly when the text is
    not blank and the new instance renders it; with the other syntaxes
    the validity is what it was. *)
Theorem renderer_ready_revalidates
    (supported : Feature -> bool) (events : list Event) (s s' : State) (viz : Viz) :
  run L (mounted L supported) events = Some s ->
  step L s (VizReady viz) = Some s' ->
  vizInstance s = None
  /\ vizInstance s' = Some viz
  /\ (syntax s = graphviz ->
      (hasValidDiagram s' = true
       <-> allWhiteSpace (codeInput s) = false /\ viz (codeInput s) <> Abrupt))
  /\ (syntax s <> graphviz -> hasValidDiagram s' = hasValidDiagram s).
Proof.
  intros Hrun Hstep.
  destruct (Invariant_run L events _ s (Invariant_mounted L supported) Hrun)
    as (Hp & _ & _ & Hv & _).
  cbn [step] in Hstep.
  destruct (vizInstance s) as [v0|] eqn:Ev; [discriminate|].
  assert (s' = snd (previewEffect L (setVizInstance (Some viz) s))) as ->
    by congruence.
  clear Hstep.
  destruct (previewEffect_result L (setVizInstance (Some viz) s) PreviewDiv Hp)
    as (b & content & cs & Hb & _ & ->).
  fields.
  change (syntax (setVizInstance (Some viz) s)) with (syntax s) in Hb.
  change (codeInput (setVizInstance (Some viz) s)) with (codeInput s) in Hb.
  change (vizInstance (setVizInstance (Some viz) s)) with (Some viz) in Hb.
  split; [reflexivity|split; [reflexivity|split]].
  - intros Hsy. rewrite Hsy in Hb.
    pose proof (renderDiagram_true_iff L graphviz (Some viz) PreviewDiv
                  (codeInput s) s) as Hiff.
    rewrite (Hb PreviewDiv s) in Hiff. split.
    + intros ->. destruct (proj1 Hiff eq_refl) as (Hblank & _ & Hthrow).
      split; [exact Hblank|]. intros Habrupt. apply Hthrow. simpl. now exists viz.
    + intros (Hblank & Hok).
      assert (Normal b = Normal true) as E.
      { apply Hiff. repeat split; try assumption; try discriminate.
        intros (v' & Hv' & Habrupt). inversion Hv'; subst. now apply Hok. }
      congruence.
  - intros Hsy.
    specialize (Hb PreviewDiv s). specialize (Hv PreviewDiv s).
    rewrite (renderDiagram_ignores_instance (syntax s) (Some viz) None) in Hb
      by assumption.
    congruence.
Qed.

Lemma prefix_append (p t : string) : String.prefix p (p ++ t) = true.
Proof.
  induction p as [|a p IH]; simpl.
  - now destruct t.
  - destruct (ascii_dec a a); [exact IH|congruence].
Qed.

Lemma wellFormed_upload (svgElement : node) :
  wellFormedHostCall (CallUpload (uploadRequest (dataUrlOf L svgElement))).
Proof.
  unfold wellFormedHostCall, uploadRequest, dataUrlOf.
  cbn [up_type up_mimeType up_thumbnailUrl up_url up_aiDisclosure].
  repeat split. apply prefix_append.
Qed.

Lemma wellFormed_step (s s' : State) (e : Event) :
  Invariant L s ->
  Forall wellFormedHostCall (hostCalls s) ->
  step L s e = Some s' ->
  Forall wellFormedHostCall (hostCalls s').
Proof.
  intros (Hp & He & _) Hw Hstep.
  destruct (isEditorEvent e) eqn:Hed.
  - destruct (editor_step_frame L s s' e Hp Hed Hstep) as (H1 & _).
    now rewrite H1.
  - destruct e as [value|newSyntax|viz|supported| |result|result];
      try discriminate; cbn [step] in Hstep.
    + destruct (buttonDisabled s); [discriminate|].
      assert (s' = handleAddToDesign L s) as -> by congruence.
      destruct (addElement s) as [fn|] eqn:Hfn.
      * destruct (handleAddToDesign_shape L s fn ExportDiv Hfn He)
          as (b & content & cs & _ & _ & ->).
        cbv zeta.
        destruct (if b then querySelector "svg" content else None); fields.
        -- apply Forall_app. split; [exact Hw|].
           constructor; [apply wellFormed_upload|constructor].
        -- exact Hw.
      * unfold handleAddToDesign. now rewrite Hfn.
    + destruct (pending s) as [|fn|]; try discriminate.
      assert (s' = resumeAfterUpload fn result s) as -> by congruence.
      destruct result as [ref|]; fields.
      * apply Forall_app. split; [exact Hw|].
        constructor; [repeat split|constructor].
      * exact Hw.
    + destruct (pending s) as [|fn|]; try discriminate.
      assert (s' = resumeAfterAddElement result s) as -> by congruence.
      destruct result as [x|]; fields; exact Hw.
Qed.

Lemma wellFormed_run (events : list Event) (s s' : State) :
  Invariant L s ->
  Forall wellFormedHostCall (hostCalls s) ->
  run L s events = Some s' ->
  Forall wellFormedHostCall (hostCalls s').
Proof.
  revert s. induction events as [|e events IH]; simpl; intros s Hs Hw Hrun.
  - now inversion Hrun; subst.
  - destruct (step L s e) as [s1|] eqn:E; [|discriminate].
    apply (IH s1); [| |assumption].
    + now apply (Invariant_step L s s1 e).
    + now apply (wellFormed_step s s1 e).
Qed.

(** Whatever the user does, the component sends the host nothing but
    uploads of an SVG data URL, used as its own thumbnail and declared as
    made without AI, and insertions of an image with the alternative text
    [Diagram] that is not decorative. *)
Theorem host_calls_are_well_formed
    (supported : Feature -> bool) (events : list Event) (s : State) :
  run L (mounted L supported) events = Some s ->
  Forall wellFormedHostCall (hostCalls s).
Proof.
  intros Hrun.
  apply (wellFormed_run events (mounted L supported) s
           (Invariant_mounted L supported)); [|exact Hrun].
  destruct (previewEffect_frame L (attachRefs (initialState supported)) eq_refl)
    as (H1 & _).
  unfold mounted. rewrite H1. constructor.
Qed.

End ReadyAndHost.

Lemma renderer_ready_revalidates_witness :
  run sampleLibs (mounted sampleLibs onlyAtPoint) earlyEvents
  = Some (stateAfter sampleLibs onlyAtPoint earlyEvents)
  /\ step sampleLibs (stateAfter sampleLibs onlyAtPoint earlyEvents)
       (VizReady sampleViz)
     = Some (stateAfter sampleLibs onlyAtPoint (earlyEvents ++ [VizReady sampleViz]))
  /\ vizInstance (stateAfter sampleLibs onlyAtPoint
                    (earlyEvents ++ [VizReady sampleViz])) = Some sampleViz.
Proof.
  assert (run sampleLibs (mounted sampleLibs onlyAtPoint) earlyEvents
          = Some (stateAfter sampleLibs onlyAtPoint earlyEvents)) as Hrun
    by (vm_compute; reflexivity).
  assert (step sampleLibs (stateAfter sampleLibs onlyAtPoint earlyEvents)
            (VizReady sampleViz)
          = Some (stateAfter sampleLibs onlyAtPoint
                    (earlyEvents ++ [VizReady sampleViz]))) as Hstep
    by (vm_compute; reflexivity).
  split; [exact Hrun|split; [exact Hstep|]].
  destruct (renderer_ready_revalidates sampleLibs onlyAtPoint earlyEvents _ _
              sampleViz Hrun Hstep) as (_ & H & _).
  exact H.
Defined.

Lemma host_calls_are_well_formed_witness :
  run sampleLibs (mounted sampleLibs onlyAtPoint) insertionEvents
  = Some (stateAfter sampleLibs onlyAtPoint insertionEvents)
  /\ Forall wellFormedHostCall
       (hostCalls (stateAfter sampleLibs onlyAtPoint insertionEvents)).
Proof.
  assert (run sampleLibs (mounted sampleLibs onlyAtPoint) insertionEvents
          = Some (stateAfter sampleLibs onlyAtPoint insertionEvents)) as Hrun
    by (vm_compute; reflexivity).
  split; [exact Hrun|].
  exact (host_calls_are_well_formed sampleLibs onlyAtPoint insertionEvents _ Hrun).
Defined.
